(** * QsoFrn: the FRN session object of svxlink (modules/frn/QsoFrn.cpp)

    A shallow embedding of [QsoFrn.cpp]: the session record, the member
    functions as computations in a small state-and-output monad, and the
    properties of the connection state machine, the uplink buffer and the
    response dispatcher.

    Conventions.
    - C++ [int] values are [Z]; array indices are converted with [Z.to_nat].
    - [float] samples are rationals ([Q]).  Every finite binary32 value is a
      dyadic rational, the comparisons with [1] and [-1] are exact, and the
      product [32767.0 * sample] is evaluated in binary64, where a 15-bit
      integer times a 24-bit significand is exact; the cast to [int16_t]
      truncates toward zero.  NaN and the infinities are not represented.
    - The collaborators (TCP client, timers, audio pipeline, GSM codec) are
      seen through the calls the session makes on them: each call is
      recorded, in order, as an [Effect].  Text written to [cout] is not
      recorded; text written to [cerr] is. *)

From Stdlib Require Import ZArith QArith Qabs String Ascii Lia.
From stdpp Require Import base list.

Open Scope Z_scope.

(** ** Enumerations of QsoFrn.h and AsyncTcpConnection.h, as the source
    names them *)

Inductive State : Type :=
| STATE_DISCONNECTED
| STATE_CONNECTING
| STATE_CONNECTED
| STATE_LOGGING_IN
| STATE_LOGGING_IN_2
| STATE_LOGGED_IN
| STATE_ERROR.

Inductive Request : Type :=
| RQ_RX0
| RQ_TX0
| RQ_TX1
| RQ_P
| RQ_OTHER.   (* any enumerator the switch of sendRequest does not list *)

Inductive DisconnectReason : Type :=
| DR_HOST_NOT_FOUND
| DR_REMOTE_DISCONNECTED
| DR_SYSTEM_ERROR
| DR_RECV_BUFFER_OVERFLOW
| DR_ORDERED_DISCONNECT
| DR_OTHER.   (* any reason that falls to the default label *)

Definition State_eqb (a b : State) : bool :=
  match a, b with
  | STATE_DISCONNECTED, STATE_DISCONNECTED
  | STATE_CONNECTING, STATE_CONNECTING
  | STATE_CONNECTED, STATE_CONNECTED
  | STATE_LOGGING_IN, STATE_LOGGING_IN
  | STATE_LOGGING_IN_2, STATE_LOGGING_IN_2
  | STATE_LOGGED_IN, STATE_LOGGED_IN
  | STATE_ERROR, STATE_ERROR => true
  | _, _ => false
  end.

Definition stateToString (st : State) : string :=
  match st with
  | STATE_DISCONNECTED => "DISCONNECTED"
  | STATE_CONNECTING => "CONNECTING"
  | STATE_CONNECTED => "CONNECTED"
  | STATE_LOGGING_IN => "LOGGING_IN"
  | STATE_LOGGING_IN_2 => "LOGGIN_IN_2"
  | STATE_LOGGED_IN => "LOGGED_IN"
  | STATE_ERROR => "ERROR"
  end.

(** ** The constants of QsoFrn.h

    The header is not part of the sources at hand, so its constants are the
    fields of a record every definition is parameterised by. *)

Record Header : Type := mkHeader {
  MAX_CONNECT_RETRY_CNT : Z;
  FRAME_COUNT : Z;
  PCM_FRAME_SIZE : Z;
  GSM_FRAME_SIZE : Z;
  DT_IDLE : Z;
  DT_DO_TX : Z;
  DT_VOICE_BUFFER : Z;
  DT_CLIENT_LIST : Z;
  DT_TEXT_MESSAGE : Z;
  DT_NET_NAMES : Z;
  DT_ADMIN_LIST : Z;
  DT_ACCESS_LIST : Z;
  DT_BLOCK_LIST : Z;
  DT_MUTE_LIST : Z;
  DT_ACCESS_MODE : Z
}.

(** Modelled from the spec: the capacity of the uplink buffer, declared in
    QsoFrn.h; the spec gives [BUFFER_SIZE = FRAME_COUNT x PCM_FRAME_SIZE]. *)
Definition BUFFER_SIZE (hdr : Header) : Z :=
  FRAME_COUNT hdr * PCM_FRAME_SIZE hdr.

(** Modelled from the spec: the size of a voice payload, declared in
    QsoFrn.h; the spec gives [FRAME_COUNT x GSM_FRAME_SIZE] codec bytes. *)
Definition FRN_AUDIO_PACKET_SIZE (hdr : Header) : Z :=
  FRAME_COUNT hdr * GSM_FRAME_SIZE hdr.

(** The case labels of [handleResponse], in the order of the switch. *)
Definition response_codes (hdr : Header) : list Z :=
  [DT_IDLE hdr; DT_DO_TX hdr; DT_VOICE_BUFFER hdr; DT_CLIENT_LIST hdr;
   DT_TEXT_MESSAGE hdr; DT_NET_NAMES hdr; DT_ADMIN_LIST hdr;
   DT_ACCESS_LIST hdr; DT_BLOCK_LIST hdr; DT_MUTE_LIST hdr;
   DT_ACCESS_MODE hdr].

Fixpoint distinctb (l : list Z) : bool :=
  match l with
  | [] => true
  | x :: l' => forallb (fun y => negb (x =? y)) l' && distinctb l'
  end.

(** What a compiler accepts of the header: positive sizes and pairwise
    distinct case labels. *)
Definition header_ok (hdr : Header) : bool :=
  (0 <? FRAME_COUNT hdr) && (0 <? PCM_FRAME_SIZE hdr) &&
  (0 <? GSM_FRAME_SIZE hdr) && distinctb (response_codes hdr).

(** ** Sample conversion *)

(** [x < y] on rationals. *)
Definition Qltb (x y : Q) : bool := negb (Qle_bool y x).

(** Conversion of a floating value to an integer type: truncation toward
    zero. *)
Definition Qtrunc (x : Q) : Z := Z.quot (Qnum x) (Zpos (Qden x)).

(** The three branches of the sample loop of [writeSamples]. *)
Definition to_int16 (sample : Q) : Z :=
  if Qltb 1 sample then 32767
  else if Qltb sample (-1) then -32767
  else Qtrunc (32767 * sample)%Q.

(** [static_cast<float>(pcm) / 32768.0] of [handleAudioData]. *)
Definition to_float (pcm : Z) : Q := (inject_Z pcm / 32768)%Q.

Definition INT16_MIN : Z := -32768.
Definition INT16_MAX : Z := 32767.

(** ** The port number

    [atoi(opt_port.c_str())] of [connect]: white space is skipped, one sign
    is read if there is one, and then the decimal digits that follow, up to
    the first character that is not a digit; without a digit the value is
    0.  Where the value is not one of [int] (32 bits wide) the C standard
    leaves the result undefined: [None] there. *)

Definition isspace (c : ascii) : bool :=
  let n := nat_of_ascii c in
  (n =? 32)%nat || ((9 <=? n)%nat && (n <=? 13)%nat).

Definition digit_value (c : ascii) : option Z :=
  let n := Z.of_nat (nat_of_ascii c) in
  if (48 <=? n) && (n <=? 57) then Some (n - 48) else None.

Fixpoint skip_spaces (s : string) : string :=
  match s with
  | String c s' => if isspace c then skip_spaces s' else s
  | EmptyString => s
  end.

Fixpoint digits_value (acc : Z) (s : string) : Z :=
  match s with
  | String c s' =>
    match digit_value c with
    | Some d => digits_value (10 * acc + d) s'
    | None => acc
    end
  | EmptyString => acc
  end.

Definition INT_MIN : Z := -2147483648.
Definition INT_MAX : Z := 2147483647.

Definition atoi (s : string) : option Z :=
  let v :=
    match skip_spaces s with
    | String "-"%char s' => - digits_value 0 s'
    | String "+"%char s' => digits_value 0 s'
    | s' => digits_value 0 s'
    end in
  if (INT_MIN <=? v) && (v <=? INT_MAX) then Some v else None.

(** ** Calls on the collaborators *)

Inductive Effect : Type :=
| TcpConnect (server : string) (port : option Z)
                                         (* tcp_client->connect(...) *)
| TcpDisconnect                          (* tcp_client->disconnect() *)
| TcpWrite (buf : list ascii)            (* tcp_client->write(buf, len) *)
| TimerReset                             (* con_timeout_timer->reset() *)
| StateChange (st : State)               (* the stateChange signal *)
| SinkWriteSamples (samples : list Q)    (* sinkWriteSamples(...) *)
| SourceAllSamplesFlushed                (* sourceAllSamplesFlushed() *)
| SourceResumeOutput                     (* sourceResumeOutput() *)
| Cerr (msg : string).                   (* a line on cerr, abridged *)

Definition is_TcpWrite (e : Effect) : bool :=
  match e with TcpWrite _ => true | _ => false end.

Definition is_TcpConnect (e : Effect) : bool :=
  match e with TcpConnect _ _ => true | _ => false end.

Definition is_TcpDisconnect (e : Effect) : bool :=
  match e with TcpDisconnect => true | _ => false end.

Definition is_SinkWrite (e : Effect) : bool :=
  match e with SinkWriteSamples _ => true | _ => false end.

(** The transport writes of a trace, in order. *)
Fixpoint tcp_writes (es : list Effect) : list (list ascii) :=
  match es with
  | [] => []
  | TcpWrite buf :: es' => buf :: tcp_writes es'
  | _ :: es' => tcp_writes es'
  end.

(** The number of connect attempts of a trace. *)
Definition connect_attempts (es : list Effect) : nat :=
  length (filter (fun e => is_TcpConnect e = true) es).

Definition endl : list ascii := ["010"%char].

Definition token (s : string) : list ascii := list_ascii_of_string s.

(** The configuration values read by the constructor. *)
Record Options : Type := mkOptions {
  opt_server : string;
  opt_port : string;
  opt_email_address : string;
  opt_dyn_password : string;
  opt_callsign_and_user : string;
  opt_client_type : string;
  opt_band_and_channel : string;
  opt_description : string;
  opt_country : string;
  opt_city_city_part : string;
  opt_net : string;
  opt_version : string
}.

(** ** An instance of the header, and a stand-in for the codec

    A header with five retries, five frames of 320 samples and 65 bytes
    each, and the response codes 0 to 10; a stand-in for the codec that
    alternates between 32 and 33 output bytes as WAV49 does; a
    configuration; sample and byte arrays. *)

Definition frn_header : Header :=
  mkHeader 5 5 320 65 0 1 2 3 4 5 6 7 8 9 10.

Definition stub_encode (g : bool) (src : list Z) : bool * list ascii :=
  (negb g,
   map (fun z => ascii_of_nat (Z.to_nat (z mod 256)))
     (take (if g then 33 else 32)%nat src)).

Definition stub_decode (g : bool) (src : list ascii) : bool * list Z :=
  (negb g,
   replicate 160 (match src with
                  | [] => 0
                  | c :: _ => Z.of_nat (nat_of_ascii c)
                  end)).

Definition sample_cfg (tag : string) : option string :=
  if String.eqb tag "SERVER" then Some "frn.example.org"%string
  else if String.eqb tag "PORT" then Some "10024"%string
  else Some tag.

(** A full buffer of samples, and one sample more. *)
Definition full_buffer : list Q := replicate 1600 (1 # 2)%Q.
Definition overfull_buffer : list Q := replicate 1601 (3 # 4)%Q.

(** A voice message one byte short: the code 2 and 326 more bytes. *)
Definition short_voice_packet : list ascii := "002"%char :: replicate 326 zero.

(** A stand-in for the encoder that always yields 32 or 33 bytes. *)
Definition wav49_stub_encode (g : bool) (src : list Z) : bool * list ascii :=
  (negb g,
   replicate (if g then 33 else 32)%nat
     (match src with
      | [] => zero
      | z :: _ => ascii_of_nat (Z.to_nat (z mod 256))
      end)).

(** A voice message of the right length: the code 2 and 327 more bytes. *)
Definition voice_packet : list ascii := "002"%char :: replicate 327 zero.

(** ** The session *)

Section Session.

(** The constants of the header. *)
Variable hdr : Header.

(** The GSM codec (libgsm) is a black box with a state: a call consumes
    the samples (bytes) found at the source pointer and yields the bytes
    (samples) it stores at the destination pointer.  The source pointer is
    passed as the part of the array that starts there. *)
Variable gsm : Type.
Variable gsm_encode : gsm -> list Z -> gsm * list ascii.
Variable gsm_decode : gsm -> list ascii -> gsm * list Z.

(** Whether a [Timer] is enabled when it is constructed.  The class is not
    among the sources, and the constructor of [QsoFrn] disables its two
    timers only after it has read every configuration variable. *)
Variable new_Timer : bool.

(** The data members of the class.  [tcp_client] holds what
    [tcp_client->isConnected()] answers; a timer member holds whether the
    timer is enabled. *)
Record QsoFrn : Type := mkQsoFrn {
  init_ok : bool;
  is_sending_voice : bool;
  is_receiving_voice : bool;
  tcp_client : bool;
  keep_alive_timer : bool;
  con_timeout_timer : bool;
  state : State;
  connect_retry_cnt : Z;
  send_buffer_cnt : Z;
  gsmh : gsm;
  send_buffer : list Z;
  receive_buffer : list Z;
  opts : Options
}.

Definition set_is_sending_voice (v : bool) (q : QsoFrn) : QsoFrn :=
  mkQsoFrn (init_ok q) v (is_receiving_voice q) (tcp_client q)
    (keep_alive_timer q) (con_timeout_timer q) (state q)
    (connect_retry_cnt q) (send_buffer_cnt q) (gsmh q) (send_buffer q)
    (receive_buffer q) (opts q).

Definition set_is_receiving_voice (v : bool) (q : QsoFrn) : QsoFrn :=
  mkQsoFrn (init_ok q) (is_sending_voice q) v (tcp_client q)
    (keep_alive_timer q) (con_timeout_timer q) (state q)
    (connect_retry_cnt q) (send_buffer_cnt q) (gsmh q) (send_buffer q)
    (receive_buffer q) (opts q).

Definition set_tcp_client (v : bool) (q : QsoFrn) : QsoFrn :=
  mkQsoFrn (init_ok q) (is_sending_voice q) (is_receiving_voice q) v
    (keep_alive_timer q) (con_timeout_timer q) (state q)
    (connect_retry_cnt q) (send_buffer_cnt q) (gsmh q) (send_buffer q)
    (receive_buffer q) (opts q).

Definition set_keep_alive_timer (v : bool) (q : QsoFrn) : QsoFrn :=
  mkQsoFrn (init_ok q) (is_sending_voice q) (is_receiving_voice q)
    (tcp_client q) v (con_timeout_timer q) (state q)
    (connect_retry_cnt q) (send_buffer_cnt q) (gsmh q) (send_buffer q)
    (receive_buffer q) (opts q).

Definition set_con_timeout_timer (v : bool) (q : QsoFrn) : QsoFrn :=
  mkQsoFrn (init_ok q) (is_sending_voice q) (is_receiving_voice q)
    (tcp_client q) (keep_alive_timer q) v (state q)
    (connect_retry_cnt q) (send_buffer_cnt q) (gsmh q) (send_buffer q)
    (receive_buffer q) (opts q).

Definition set_state (v : State) (q : QsoFrn) : QsoFrn :=
  mkQsoFrn (init_ok q) (is_sending_voice q) (is_receiving_voice q)
    (tcp_client q) (keep_alive_timer q) (con_timeout_timer q) v
    (connect_retry_cnt q) (send_buffer_cnt q) (gsmh q) (send_buffer q)
    (receive_buffer q) (opts q).

Definition set_connect_retry_cnt (v : Z) (q : QsoFrn) : QsoFrn :=
  mkQsoFrn (init_ok q) (is_sending_voice q) (is_receiving_voice q)
    (tcp_client q) (keep_alive_timer q) (con_timeout_timer q) (state q)
    v (send_buffer_cnt q) (gsmh q) (send_buffer q)
    (receive_buffer q) (opts q).

Definition set_send_buffer_cnt (v : Z) (q : QsoFrn) : QsoFrn :=
  mkQsoFrn (init_ok q) (is_sending_voice q) (is_receiving_voice q)
    (tcp_client q) (keep_alive_timer q) (con_timeout_timer q) (state q)
    (connect_retry_cnt q) v (gsmh q) (send_buffer q)
    (receive_buffer q) (opts q).

Definition set_gsmh (v : gsm) (q : QsoFrn) : QsoFrn :=
  mkQsoFrn (init_ok q) (is_sending_voice q) (is_receiving_voice q)
    (tcp_client q) (keep_alive_timer q) (con_timeout_timer q) (state q)
    (connect_retry_cnt q) (send_buffer_cnt q) v (send_buffer q)
    (receive_buffer q) (opts q).

Definition set_send_buffer (v : list Z) (q : QsoFrn) : QsoFrn :=
  mkQsoFrn (init_ok q) (is_sending_voice q) (is_receiving_voice q)
    (tcp_client q) (keep_alive_timer q) (con_timeout_timer q) (state q)
    (connect_retry_cnt q) (send_buffer_cnt q) (gsmh q) v
    (receive_buffer q) (opts q).

Definition set_receive_buffer (v : list Z) (q : QsoFrn) : QsoFrn :=
  mkQsoFrn (init_ok q) (is_sending_voice q) (is_receiving_voice q)
    (tcp_client q) (keep_alive_timer q) (con_timeout_timer q) (state q)
    (connect_retry_cnt q) (send_buffer_cnt q) (gsmh q) (send_buffer q)
    v (opts q).

(** *** The monad of member functions

    A member function reads and updates the session, records the calls it
    makes, and ends in one of three ways: it returns, an [assert] fails, or
    the fuel of a loop runs out. *)

Inductive Res (A : Type) : Type :=
| Done (a : A) (q : QsoFrn)
| Aborted
| OutOfFuel.

Arguments Done {A} a q.
Arguments Aborted {A}.
Arguments OutOfFuel {A}.

Definition M (A : Type) : Type := QsoFrn -> list Effect * Res A.

Definition ret {A : Type} (a : A) : M A := fun q => ([], Done a q).

Definition bind {A B : Type} (m : M A) (f : A -> M B) : M B :=
  fun q =>
    match m q with
    | (es, Done a q') => let (es', r) := f a q' in (es ++ es', r)
    | (es, Aborted) => (es, Aborted)
    | (es, OutOfFuel) => (es, OutOfFuel)
    end.

Definition gets {A : Type} (f : QsoFrn -> A) : M A :=
  fun q => ([], Done (f q) q).

Definition modify (f : QsoFrn -> QsoFrn) : M unit :=
  fun q => ([], Done tt (f q)).

Definition emit (e : Effect) : M unit := fun q => ([e], Done tt q).

Definition assert (b : bool) : M unit :=
  fun q => if b then ([], Done tt q) else ([], Aborted).

Definition out_of_fuel {A : Type} : M A := fun _ => ([], OutOfFuel).

Notation "x <- c1 ;; c2" := (bind c1 (fun x => c2))
  (at level 100, c1 at next level, right associativity).
Notation "c1 ;;; c2" := (bind c1 (fun _ => c2))
  (at level 100, c2 at level 200, right associativity).

(** The trace and the session a computation ends with. *)
Definition trace_of {A : Type} (r : list Effect * Res A) : list Effect :=
  fst r.

Definition session_of {A : Type} (r : list Effect * Res A) : option QsoFrn :=
  match snd r with Done _ q => Some q | _ => None end.

(** *** The constructor *)

(** The members as the initialiser list leaves them: the transport is
    not connected, the timers are as constructed and the option strings are
    empty.  The arrays are not initialised by the constructor; no element
    is read before it is written, and they are modelled as zero-filled. *)
Definition QsoFrn_blank (g : gsm) : QsoFrn :=
  mkQsoFrn false false false false new_Timer new_Timer STATE_DISCONNECTED
    0 0 g
    (replicate (Z.to_nat (BUFFER_SIZE hdr)) 0)
    (replicate (Z.to_nat (BUFFER_SIZE hdr)) 0)
    (let e := EmptyString in mkOptions e e e e e e e e e e e e).

(** The configuration variables, in the order the constructor reads
    them. *)
Definition config_variables : list string :=
  ["SERVER"; "PORT"; "EMAIL_ADDRESS"; "DYN_PASSWORD"; "CALLSIGN_AND_USER";
   "CLIENT_TYPE"; "BAND_AND_CHANNEL"; "DESCRIPTION"; "COUNTRY";
   "CITY_CITY_PART"; "NET"; "VERSION"]%string.

(** [cfg.getValue(cfg_name, tag, dst)] for each variable in turn, up to
    the first one that is missing: the values read, and the variable found
    missing. *)
Fixpoint read_in_turn (cfg : string -> option string) (tags : list string)
    : list string * option string :=
  match tags with
  | [] => ([], None)
  | tag :: tags' =>
    match cfg tag with
    | None => ([], Some tag)
    | Some v =>
      let (vs, missing) := read_in_turn cfg tags' in (v :: vs, missing)
    end
  end.

(** The option members once the values [vs] have been stored, each in the
    member of its variable; the members not reached keep the empty
    string. *)
Definition options_read (vs : list string) : Options :=
  let m i := nth i vs EmptyString in
  mkOptions (m 0%nat) (m 1%nat) (m 2%nat) (m 3%nat) (m 4%nat) (m 5%nat)
    (m 6%nat) (m 7%nat) (m 8%nat) (m 9%nat) (m 10%nat) (m 11%nat).

(** The constructor: the line it puts on cerr, and the session it leaves.
    At the first missing variable it returns with [init_ok] still false,
    the options read so far stored and the timers as constructed.  With
    every variable present it disables both timers and sets [init_ok]; it
    is only then that it connects the callbacks of the transport and of
    the timers, so that the events of the transport and of the timers
    reach only a session whose [init_ok] is set. *)
Definition QsoFrn_ctor (g : gsm) (cfg : string -> option string)
    : list Effect * QsoFrn :=
  let q := QsoFrn_blank g in
  let (vs, missing) := read_in_turn cfg config_variables in
  match missing with
  | Some tag =>
    ([Cerr ("Config variable " ++ tag ++ " not set")%string],
     mkQsoFrn false (is_sending_voice q) (is_receiving_voice q)
       (tcp_client q) (keep_alive_timer q) (con_timeout_timer q) (state q)
       (connect_retry_cnt q) (send_buffer_cnt q) (gsmh q) (send_buffer q)
       (receive_buffer q) (options_read vs))
  | None =>
    ([],
     mkQsoFrn true (is_sending_voice q) (is_receiving_voice q)
       (tcp_client q) false false (state q) (connect_retry_cnt q)
       (send_buffer_cnt q) (gsmh q) (send_buffer q) (receive_buffer q)
       (options_read vs))
  end.

Definition QsoFrn_new (g : gsm) (cfg : string -> option string) : QsoFrn :=
  snd (QsoFrn_ctor g cfg).

Definition initOk : M bool := gets init_ok.

(** *** Private member functions *)

Definition setState (newState : State) : M unit :=
  st <- gets state ;;
  if State_eqb newState st then ret tt
  else modify (set_state newState) ;;; emit (StateChange newState).

Definition connect : M unit :=
  setState STATE_CONNECTING ;;;
  o <- gets opts ;;
  emit (TcpConnect (opt_server o) (atoi (opt_port o))).

Definition disconnect : M unit :=
  setState STATE_DISCONNECTED ;;;
  modify (set_keep_alive_timer false) ;;;
  modify (set_con_timeout_timer false) ;;;
  connected <- gets tcp_client ;;
  if connected then emit TcpDisconnect ;;; modify (set_tcp_client false)
  else ret tt.

Definition sendRequest (rq : Request) : M unit :=
  match
    match rq with
    | RQ_RX0 => Some "RX0"%string
    | RQ_TX0 => Some "TX0"%string
    | RQ_TX1 => Some "TX1"%string
    | RQ_P => Some "P"%string
    | RQ_OTHER => None
    end
  with
  | None => emit (Cerr "unknown request"%string)
  | Some s =>
    connected <- gets tcp_client ;;
    if connected then emit (TcpWrite (token s ++ endl)) else ret tt
  end.

(** The text [login] puts on its string stream, piece by piece. *)
Definition login_request (o : Options) : string :=
  String.concat EmptyString
    ["CT:";
     "<VX>"; opt_version o; "</VX>";
     "<EA>"; opt_email_address o; "</EA>";
     "<PW>"; opt_dyn_password o; "</PW>";
     "<ON>"; opt_callsign_and_user o; "</ON>";
     "<CL>"; opt_client_type o; "</CL>";
     "<BC>"; opt_band_and_channel o; "</BC>";
     "<DS>"; opt_description o; "</DS>";
     "<NN>"; opt_country o; "</NN>";
     "<CT>"; opt_city_city_part o; "</CT>";
     "<NT>"; opt_net o; "</NT>"]%string.

(** The login request as a list of tagged segments: the identity fields
    in the order version, email, credential, callsign and user, client
    type, band and channel, description, country, locality, network. *)
Definition identity_fields (o : Options) : list (string * string) :=
  [("VX", opt_version o); ("EA", opt_email_address o);
   ("PW", opt_dyn_password o); ("ON", opt_callsign_and_user o);
   ("CL", opt_client_type o); ("BC", opt_band_and_channel o);
   ("DS", opt_description o); ("NN", opt_country o);
   ("CT", opt_city_city_part o); ("NT", opt_net o)]%string.

Definition tagged (f : string * string) : string :=
  ("<" ++ fst f ++ ">" ++ snd f ++ "</" ++ fst f ++ ">")%string.

Definition composite_login (o : Options) : string :=
  ("CT:" ++ String.concat EmptyString (map tagged (identity_fields o)))%string.

Definition login : M unit :=
  setState STATE_LOGGING_IN ;;;
  o <- gets opts ;;
  emit (TcpWrite (token (login_request o) ++ endl)).

Definition reconnect : M unit :=
  cnt <- gets connect_retry_cnt ;;
  modify (set_connect_retry_cnt (cnt + 1)) ;;;
  if cnt <? MAX_CONNECT_RETRY_CNT hdr then connect
  else setState STATE_ERROR ;;; emit (Cerr "failed to connect"%string).

(** The frame loop of [sendVoiceData]: local to the function apart from
    the codec state.  [gsm_data] is the local byte array, [nbytes] the byte
    count; a call of the encoder stores its output at [dst], then at
    [dst + 32]. *)
Fixpoint encode_frames (n : nat) (nframe : Z) (buf : list Z) (g : gsm)
    (gsm_data : list ascii) (nbytes : Z) : gsm * list ascii * Z :=
  match n with
  | O => (g, gsm_data, nbytes)
  | S n' =>
    let src := nframe * PCM_FRAME_SIZE hdr in
    let dst := nframe * GSM_FRAME_SIZE hdr in
    let (g1, out1) := gsm_encode g (drop (Z.to_nat src) buf) in
    let gsm_data1 := list_inserts (Z.to_nat dst) out1 gsm_data in
    let (g2, out2) :=
      gsm_encode g1 (drop (Z.to_nat (src + PCM_FRAME_SIZE hdr ÷ 2)) buf) in
    let gsm_data2 := list_inserts (Z.to_nat (dst + 32)) out2 gsm_data1 in
    encode_frames n' (nframe + 1) buf g2 gsm_data2
      (nbytes + GSM_FRAME_SIZE hdr)
  end.

(** The local array [gsm_data] before the loop; the C++ array is not
    initialised. *)
Definition gsm_data0 : list ascii :=
  replicate (Z.to_nat (FRN_AUDIO_PACKET_SIZE hdr)) zero.

Definition sendVoiceData : M unit :=
  cnt <- gets send_buffer_cnt ;;
  assert (cnt =? BUFFER_SIZE hdr) ;;;
  g <- gets gsmh ;;
  buf <- gets send_buffer ;;
  let '(g', gsm_data, nbytes) :=
    encode_frames (Z.to_nat (FRAME_COUNT hdr)) 0 buf g gsm_data0 0 in
  modify (set_gsmh g') ;;;
  sendRequest RQ_TX1 ;;;
  emit (TcpWrite (take (Z.to_nat nbytes) gsm_data)) ;;;
  modify (set_send_buffer_cnt 0).

(** The frame loop of [handleAudioData]; [pcm_buffer] is the offset of the
    moving pointer into [receive_buffer]. *)
Fixpoint decode_frames (n : nat) (frameno : Z) (gsm_data : list ascii)
    (pcm_buffer : Z) : M unit :=
  match n with
  | O => ret tt
  | S n' =>
    let src := Z.to_nat (frameno * GSM_FRAME_SIZE hdr) in
    let dst := Z.to_nat pcm_buffer in
    g <- gets gsmh ;;
    let (g1, pcm1) := gsm_decode g (drop src gsm_data) in
    let (g2, pcm2) := gsm_decode g1 (drop (src + 33)%nat gsm_data) in
    modify (fun q =>
      set_gsmh g2
        (set_receive_buffer
           (list_inserts (dst + Z.to_nat (PCM_FRAME_SIZE hdr ÷ 2))%nat pcm2
              (list_inserts dst pcm1 (receive_buffer q))) q)) ;;;
    rb <- gets receive_buffer ;;
    emit (SinkWriteSamples
            (map to_float
               (take (Z.to_nat (PCM_FRAME_SIZE hdr)) (drop dst rb)))) ;;;
    decode_frames n' (frameno + 1) gsm_data
      (pcm_buffer + PCM_FRAME_SIZE hdr)
  end.

Definition handleAudioData (data : list ascii) (len : Z) : M unit :=
  if negb (len =? FRN_AUDIO_PACKET_SIZE hdr + 3) then ret tt
  else decode_frames (Z.to_nat (FRAME_COUNT hdr)) 0 (drop 3 data) 0.

(** The informational codes that share one case body. *)
Definition list_codes : list Z :=
  [DT_CLIENT_LIST hdr; DT_TEXT_MESSAGE hdr; DT_NET_NAMES hdr;
   DT_ADMIN_LIST hdr; DT_ACCESS_LIST hdr; DT_BLOCK_LIST hdr;
   DT_MUTE_LIST hdr; DT_ACCESS_MODE hdr].

Definition handleResponse (cmd : Z) (data : list ascii) (len : Z) : M unit :=
  if cmd =? DT_IDLE hdr then ret tt
  else if cmd =? DT_DO_TX hdr then
    modify (set_is_sending_voice true) ;;; emit SourceResumeOutput
  else if cmd =? DT_VOICE_BUFFER hdr then
    modify (set_is_receiving_voice true) ;;; handleAudioData data len
  else if existsb (Z.eqb cmd) list_codes then ret tt
  else emit (Cerr "unknown command"%string).

(** *** Public member functions *)

(** The sample loop of [writeSamples]: [n] iterations that each convert
    [samples[samples_read++]] and store it at [send_buffer[send_buffer_cnt++]].
    Returns the new [samples_read]. *)
Fixpoint copy_samples (n : nat) (samples : list Q) (samples_read : Z) : M Z :=
  match n with
  | O => ret samples_read
  | S n' =>
    let sample := nth (Z.to_nat samples_read) samples 0%Q in
    modify (fun q =>
      set_send_buffer_cnt (send_buffer_cnt q + 1)
        (set_send_buffer
           (<[Z.to_nat (send_buffer_cnt q) := to_int16 sample]>
              (send_buffer q)) q)) ;;;
    copy_samples n' samples (samples_read + 1)
  end.

(** The while loop of [writeSamples], with fuel. *)
Fixpoint writeSamples_loop (fuel : nat) (samples : list Q)
    (count samples_read : Z) : M Z :=
  match fuel with
  | O => out_of_fuel
  | S fuel' =>
    if samples_read <? count then
      cnt <- gets send_buffer_cnt ;;
      let read_cnt := Z.min (BUFFER_SIZE hdr - cnt) (count - samples_read) in
      samples_read' <- copy_samples (Z.to_nat read_cnt) samples samples_read ;;
      cnt' <- gets send_buffer_cnt ;;
      if cnt' =? BUFFER_SIZE hdr then
        sending <- gets is_sending_voice ;;
        if sending then
          sendVoiceData ;;;
          writeSamples_loop fuel' samples count samples_read'
        else ret samples_read'
      else writeSamples_loop fuel' samples count samples_read'
    else ret samples_read
  end.

(** Every pass of the loop but the first consumes a sample, so
    [count + 2] passes are enough (see [writeSamples_returns]). *)
Definition writeSamples (samples : list Q) (count : Z) : M Z :=
  st <- gets state ;;
  if negb (State_eqb st STATE_LOGGED_IN) then ret count
  else writeSamples_loop (S (S (Z.to_nat count))) samples count 0.

(** [memset(send_buffer + n, 0, sizeof(send_buffer) - sizeof(short) * n)] *)
Definition zero_tail (n : Z) (buf : list Z) : list Z :=
  take (Z.to_nat n) buf ++ replicate (length buf - Z.to_nat n) 0.

Definition flushSamples : M unit :=
  st <- gets state ;;
  cnt <- gets send_buffer_cnt ;;
  (if State_eqb st STATE_LOGGED_IN && (0 <? cnt) then
     modify (fun q => set_send_buffer (zero_tail cnt (send_buffer q)) q) ;;;
     modify (set_send_buffer_cnt (BUFFER_SIZE hdr)) ;;;
     sendVoiceData ;;;
     sendRequest RQ_TX0 ;;;
     modify (set_is_sending_voice false)
   else ret tt) ;;;
  emit SourceAllSamplesFlushed.

Definition resumeOutput : M unit := ret tt.

Definition squelchOpen (is_open : bool) : M unit :=
  if is_open then sendRequest RQ_TX0 else ret tt.

Definition allSamplesFlushed : M unit := ret tt.

(** *** Callbacks of the transport and of the timers *)

Definition onConnected : M unit :=
  setState STATE_CONNECTED ;;;
  modify (set_connect_retry_cnt 0) ;;;
  modify (set_con_timeout_timer true) ;;;
  login.

Definition onDisconnected (reason : DisconnectReason) : M unit :=
  setState STATE_DISCONNECTED ;;;
  modify (set_keep_alive_timer false) ;;;
  modify (set_con_timeout_timer false) ;;;
  match reason with
  | DR_HOST_NOT_FOUND => setState STATE_ERROR
  | DR_REMOTE_DISCONNECTED => reconnect
  | DR_SYSTEM_ERROR => reconnect
  | DR_RECV_BUFFER_OVERFLOW => setState STATE_ERROR
  | DR_ORDERED_DISCONNECT => ret tt
  | DR_OTHER => setState STATE_ERROR
  end.

(** [data_s[0]] of a [std::string] built from [len] bytes: the first byte,
    or the terminating null when the string is empty.  The byte is read as
    its unsigned value. *)
Definition first_byte (data : list ascii) : Z :=
  match data with
  | [] => 0
  | c :: _ => Z.of_nat (nat_of_ascii c)
  end.

Definition onDataReceived (data : list ascii) (len : Z) : M Z :=
  emit TimerReset ;;;
  st <- gets state ;;
  match st with
  | STATE_LOGGING_IN => setState STATE_LOGGING_IN_2
  | STATE_LOGGING_IN_2 =>
    setState STATE_LOGGED_IN ;;;
    modify (set_keep_alive_timer true) ;;;
    sendRequest RQ_RX0
  | STATE_LOGGED_IN => handleResponse (first_byte data) data len
  | _ => ret tt
  end ;;;
  ret len.

Definition onSendBufferFull (is_full : bool) : M unit := ret tt.

Definition onKeepaliveTimeout : M unit :=
  connected <- gets tcp_client ;;
  if connected then sendRequest RQ_P else ret tt.

Definition onConnectTimeout : M unit :=
  disconnect ;;; reconnect.

(** *** The event loop

    The session is driven by calls of the owning module and of the audio
    pipeline, and by callbacks of the transport and of the two timers.  The
    transport is connected from the moment it reports success to the moment
    it reports a disconnect or is told to disconnect; a disabled timer does
    not expire. *)

Inductive Event : Type :=
| CallConnect
| CallDisconnect
| CallWriteSamples (samples : list Q)
| CallFlushSamples
| CallSquelchOpen (is_open : bool)
| TcpConnected
| TcpDisconnected (reason : DisconnectReason)
| TcpDataReceived (data : list ascii)
| KeepAliveExpired
| ConTimeoutExpired.

Definition deliver (e : Event) : M unit :=
  match e with
  | CallConnect => connect
  | CallDisconnect => disconnect
  | CallWriteSamples samples =>
    writeSamples samples (Z.of_nat (length samples)) ;;; ret tt
  | CallFlushSamples => flushSamples
  | CallSquelchOpen is_open => squelchOpen is_open
  | TcpConnected => modify (set_tcp_client true) ;;; onConnected
  | TcpDisconnected reason =>
    modify (set_tcp_client false) ;;; onDisconnected reason
  | TcpDataReceived data =>
    onDataReceived data (Z.of_nat (length data)) ;;; ret tt
  | KeepAliveExpired =>
    enabled <- gets keep_alive_timer ;;
    if enabled then onKeepaliveTimeout else ret tt
  | ConTimeoutExpired =>
    enabled <- gets con_timeout_timer ;;
    if enabled then onConnectTimeout else ret tt
  end.

Fixpoint run (evs : list Event) : M unit :=
  match evs with
  | [] => ret tt
  | e :: evs' => deliver e ;;; run evs'
  end.

(** The states in which the transport is open. *)
Definition online (st : State) : bool :=
  match st with
  | STATE_CONNECTED | STATE_LOGGING_IN | STATE_LOGGING_IN_2
  | STATE_LOGGED_IN => true
  | _ => false
  end.

(** The invariant of the session: the fill count stays within the array,
    the array keeps its size, and an online state has an open transport. *)
Definition session_inv (q : QsoFrn) : bool :=
  (0 <=? send_buffer_cnt q) && (send_buffer_cnt q <=? BUFFER_SIZE hdr) &&
  (length (send_buffer q) =? Z.to_nat (BUFFER_SIZE hdr))%nat &&
  implb (online (state q)) (tcp_client q).

(** A run of consecutive disconnects reported by the transport: the trace
    of each one, and the session after the last. *)
Fixpoint disconnects (rs : list DisconnectReason) (q : QsoFrn)
    : list (list Effect) * option QsoFrn :=
  match rs with
  | [] => ([], Some q)
  | r :: rs' =>
    let out := deliver (TcpDisconnected r) q in
    match session_of out with
    | Some q' =>
      let (ts, q'') := disconnects rs' q' in (trace_of out :: ts, q'')
    | None => ([trace_of out], None)
    end
  end.

Definition transient (r : DisconnectReason) : bool :=
  match r with
  | DR_REMOTE_DISCONNECTED | DR_SYSTEM_ERROR => true
  | _ => false
  end.

(** *** Definitions used to state the properties *)

(** The bytes [sendVoiceData] hands to the transport for the buffer [buf],
    and the codec state it leaves. *)
Definition voice_payload (g : gsm) (buf : list Z) : list ascii :=
  let '(_, gsm_data, nbytes) :=
    encode_frames (Z.to_nat (FRAME_COUNT hdr)) 0 buf g gsm_data0 0 in
  take (Z.to_nat nbytes) gsm_data.

Definition gsm_after_encode (g : gsm) (buf : list Z) : gsm :=
  fst (fst (encode_frames (Z.to_nat (FRAME_COUNT hdr)) 0 buf g gsm_data0 0)).

(** The request tokens as they go out on an open transport. *)
Definition TX0 : list ascii := token "TX0" ++ endl.
Definition TX1 : list ascii := token "TX1" ++ endl.
Definition RX0 : list ascii := token "RX0" ++ endl.

(** The converted samples [samples[from .. from + n - 1]]. *)
Definition converted (samples : list Q) (from : Z) (n : nat) : list Z :=
  map (fun i => to_int16 (nth i samples 0%Q)) (seq (Z.to_nat from) n).

(** The session after the values [xs] were appended to the buffer. *)
Definition store_samples (xs : list Z) (q : QsoFrn) : QsoFrn :=
  set_send_buffer_cnt (send_buffer_cnt q + Z.of_nat (length xs))
    (set_send_buffer
       (list_inserts (Z.to_nat (send_buffer_cnt q)) xs (send_buffer q)) q).

(** The members a call of [writeSamples] can change. *)
Definition uplink_update (b : list Z) (c : Z) (g : gsm) (q : QsoFrn)
    : QsoFrn :=
  set_send_buffer b (set_send_buffer_cnt c (set_gsmh g q)).

Definition only_writes (es : list Effect) : Prop :=
  Forall (fun e => is_TcpWrite e = true) es.

(** The session a sequence of events leads to. *)
Definition session_after (evs : list Event) (q : QsoFrn) : QsoFrn :=
  match session_of (run evs q) with
  | Some q' => q'
  | None => q
  end.

(** The configuration variables the constructor asks for, in its order. *)
Definition required_tags : list string :=
  ["SERVER"; "PORT"; "EMAIL_ADDRESS"; "DYN_PASSWORD"; "CALLSIGN_AND_USER";
   "CLIENT_TYPE"; "BAND_AND_CHANNEL"; "DESCRIPTION"; "COUNTRY";
   "CITY_CITY_PART"; "NET"; "VERSION"]%string.

Definition present (cfg : string -> option string) (tag : string) : bool :=
  match cfg tag with Some _ => true | None => false end.

Definition configured (cfg : string -> option string) (tag : string)
    : string :=
  match cfg tag with Some v => v | None => EmptyString end.

(** The calls that open or close the transport, in order. *)
Definition connection_calls (es : list Effect) : list Effect :=
  filter (fun e => is_TcpConnect e || is_TcpDisconnect e = true) es.

(** The states without a connection or an attempt at one. *)
Definition offline (st : State) : bool :=
  match st with
  | STATE_DISCONNECTED | STATE_ERROR => true
  | _ => false
  end.

(** Offline, both timers are disabled and the transport is closed. *)
Definition quiet_inv (q : QsoFrn) : bool :=
  implb (offline (state q))
    (negb (keep_alive_timer q) && negb (con_timeout_timer q)
     && negb (tcp_client q)).

(** The members no audio call touches, and the size of the receive array. *)
Definition same_control (q q' : QsoFrn) : Prop :=
  state q' = state q /\ tcp_client q' = tcp_client q
  /\ keep_alive_timer q' = keep_alive_timer q
  /\ con_timeout_timer q' = con_timeout_timer q
  /\ connect_retry_cnt q' = connect_retry_cnt q
  /\ opts q' = opts q
  /\ length (receive_buffer q') = length (receive_buffer q).

(** The PCM blocks the frame loop of [handleAudioData] decodes: for each
    packed unit, the output of the two decoder calls, one after the
    other. *)
Fixpoint decoded_blocks (n : nat) (frameno : Z) (gsm_data : list ascii)
    (g : gsm) : list (list Z) :=
  match n with
  | O => []
  | S n' =>
    let src := Z.to_nat (frameno * GSM_FRAME_SIZE hdr) in
    let (g1, pcm1) := gsm_decode g (drop src gsm_data) in
    let (g2, pcm2) := gsm_decode g1 (drop (src + 33)%nat gsm_data) in
    (pcm1 ++ pcm2) :: decoded_blocks n' (frameno + 1) gsm_data g2
  end.

(** The decoder yields half a PCM frame per call, and the receive array
    holds FRAME_COUNT frames. *)
Definition decoder_fits : Prop :=
  PCM_FRAME_SIZE hdr = 2 * (PCM_FRAME_SIZE hdr ÷ 2)
  /\ forall g src,
       length (snd (gsm_decode g src))
       = Z.to_nat (PCM_FRAME_SIZE hdr ÷ 2).

(** What an event does to the failure counter, and how many connect
    attempts it makes. *)
Definition retry_cnt_after (e : Event) (q : QsoFrn) : Z :=
  match e with
  | TcpConnected => 0
  | TcpDisconnected r =>
    if transient r then connect_retry_cnt q + 1 else connect_retry_cnt q
  | ConTimeoutExpired =>
    if con_timeout_timer q then connect_retry_cnt q + 1
    else connect_retry_cnt q
  | _ => connect_retry_cnt q
  end.

Definition attempts_of (e : Event) (q : QsoFrn) : nat :=
  match e with
  | CallConnect => 1%nat
  | TcpDisconnected r =>
    if transient r && (connect_retry_cnt q <? MAX_CONNECT_RETRY_CNT hdr)
    then 1%nat else 0%nat
  | ConTimeoutExpired =>
    if con_timeout_timer q
       && (connect_retry_cnt q <? MAX_CONNECT_RETRY_CNT hdr)
    then 1%nat else 0%nat
  | _ => 0%nat
  end.

(** What an event does to the transmitting flag. *)
Definition sending_after (e : Event) (q : QsoFrn) : bool :=
  match e with
  | TcpDataReceived data =>
    is_sending_voice q
    || (State_eqb (state q) STATE_LOGGED_IN
        && (first_byte data =? DT_DO_TX hdr))
  | CallFlushSamples =>
    is_sending_voice q
    && negb (State_eqb (state q) STATE_LOGGED_IN
             && (0 <? send_buffer_cnt q))
  | _ => is_sending_voice q
  end.

(** The calls that send the payloads [ps]: each one announced by TX1. *)
Definition voice_writes (ps : list (list ascii)) : list Effect :=
  flat_map (fun p => [TcpWrite TX1; TcpWrite p]) ps.

(** The packed units the frame loop of [sendVoiceData] encodes: for each
    PCM frame, the output of the encoder on its first half followed by the
    output on its second half. *)
Fixpoint encoded_units (n : nat) (nframe : Z) (buf : list Z) (g : gsm)
    : list (list ascii) :=
  match n with
  | O => []
  | S n' =>
    let src := nframe * PCM_FRAME_SIZE hdr in
    let (g1, out1) := gsm_encode g (drop (Z.to_nat src) buf) in
    let (g2, out2) :=
      gsm_encode g1 (drop (Z.to_nat (src + PCM_FRAME_SIZE hdr ÷ 2)) buf) in
    (out1 ++ out2) :: encoded_units n' (nframe + 1) buf g2
  end.

(** The encoder in WAV49 mode: every call flips a phase of the codec
    state, and yields 32 bytes in one phase and 33 in the other. *)
Definition encoder_alternates (phase : gsm -> bool) : Prop :=
  forall g src,
    phase (fst (gsm_encode g src)) = negb (phase g)
    /\ length (snd (gsm_encode g src)) = (if phase g then 33 else 32)%nat.

(** ** Properties *)

(** *** Equality of states *)

Lemma State_eqb_spec (a b : State) : reflect (a = b) (State_eqb a b).
Proof. destruct a, b; simpl; constructor; congruence. Qed.

Lemma State_eqb_refl (a : State) : State_eqb a a = true.
Proof. now destruct a. Qed.

(** *** The frame loop of the encoder *)

Lemma encode_frames_nbytes (n : nat) :
  forall nframe buf g gsm_data nbytes,
    snd (encode_frames n nframe buf g gsm_data nbytes)
    = nbytes + Z.of_nat n * GSM_FRAME_SIZE hdr.
Proof.
  induction n as [|n IH]; intros nframe buf g gsm_data nbytes.
  - simpl. lia.
  - cbn [encode_frames].
    destruct (gsm_encode g _) as [g1 out1].
    destruct (gsm_encode g1 _) as [g2 out2].
    rewrite IH. lia.
Qed.

Lemma encode_frames_length (n : nat) :
  forall nframe buf g gsm_data nbytes,
    length (snd (fst (encode_frames n nframe buf g gsm_data nbytes)))
    = length gsm_data.
Proof.
  induction n as [|n IH]; intros nframe buf g gsm_data nbytes.
  - reflexivity.
  - cbn [encode_frames].
    destruct (gsm_encode g _) as [g1 out1].
    destruct (gsm_encode g1 _) as [g2 out2].
    rewrite IH, !length_inserts. reflexivity.
Qed.

Lemma voice_payload_length (g : gsm) (buf : list Z) :
  0 <= FRAME_COUNT hdr -> 0 <= GSM_FRAME_SIZE hdr ->
  Z.of_nat (length (voice_payload g buf))
  = FRAME_COUNT hdr * GSM_FRAME_SIZE hdr.
Proof.
  intros Hf Hg. unfold voice_payload.
  pose proof (encode_frames_nbytes (Z.to_nat (FRAME_COUNT hdr)) 0 buf g
                gsm_data0 0) as Hn.
  pose proof (encode_frames_length (Z.to_nat (FRAME_COUNT hdr)) 0 buf g
                gsm_data0 0) as Hl.
  destruct (encode_frames _ _ _ _ _ _) as [[g' d] nb]. simpl in Hn, Hl.
  rewrite length_take, Hl. unfold gsm_data0.
  rewrite length_replicate. unfold FRN_AUDIO_PACKET_SIZE. subst nb.
  rewrite Z2Nat.id by lia. lia.
Qed.

Lemma sendVoiceData_spec (q : QsoFrn) :
  send_buffer_cnt q = BUFFER_SIZE hdr ->
  sendVoiceData q
  = ((if tcp_client q then [TcpWrite TX1] else [])
       ++ [TcpWrite (voice_payload (gsmh q) (send_buffer q))],
     Done tt (set_send_buffer_cnt 0
                (set_gsmh (gsm_after_encode (gsmh q) (send_buffer q)) q))).
Proof.
  intros Hc. unfold sendVoiceData, voice_payload, gsm_after_encode.
  unfold bind at 1. cbn [gets]. unfold bind at 1. unfold assert.
  rewrite Hc, Z.eqb_refl. unfold bind at 1. cbn [gets].
  unfold bind at 1. cbn [gets].
  destruct (encode_frames _ _ _ _ _ _) as [[g' d] nb].
  unfold bind, modify, sendRequest, gets, emit, ret. cbn.
  destruct (tcp_client q); reflexivity.
Qed.

(** *** Sequencing *)

Lemma bind_pure {A B : Type} (m : M A) (f : A -> M B) q a q' :
  m q = ([], Done a q') -> bind m f q = f a q'.
Proof. intros H. unfold bind. rewrite H. now destruct (f a q'). Qed.

Lemma bind_done {A B : Type} (m : M A) (f : A -> M B) q es a q' :
  m q = (es, Done a q') ->
  bind m f q = (es ++ fst (f a q'), snd (f a q')).
Proof. intros H. unfold bind. rewrite H. now destruct (f a q'). Qed.

Lemma bind_gets {A B : Type} (g : QsoFrn -> A) (f : A -> M B) q :
  bind (gets g) f q = f (g q) q.
Proof. now apply bind_pure. Qed.

Lemma bind_modify {B : Type} (g : QsoFrn -> QsoFrn) (f : unit -> M B) q :
  bind (modify g) f q = f tt (g q).
Proof. now apply bind_pure. Qed.

Lemma bind_assoc {A B C : Type} (m : M A) (f : A -> M B) (g : B -> M C) q :
  bind (bind m f) g q = bind m (fun x => bind (f x) g) q.
Proof.
  unfold bind. destruct (m q) as [es [a q'| |]]; try reflexivity.
  destruct (f a q') as [es' [b q''| |]]; try reflexivity.
  destruct (g b q'') as [es'' r]. now rewrite app_assoc.
Qed.

(** *** The sample loop *)

Lemma store_samples_nil (q : QsoFrn) : store_samples [] q = q.
Proof.
  destruct q. unfold store_samples, set_send_buffer_cnt, set_send_buffer.
  cbn. now rewrite Z.add_0_r.
Qed.

Lemma length_converted samples from n : length (converted samples from n) = n.
Proof. unfold converted. now rewrite length_map, length_seq. Qed.

Lemma converted_S samples from n :
  0 <= from ->
  converted samples from (S n)
  = to_int16 (nth (Z.to_nat from) samples 0%Q)
      :: converted samples (from + 1) n.
Proof.
  intros H. unfold converted. cbn [seq map].
  now replace (Z.to_nat (from + 1)) with (S (Z.to_nat from)) by lia.
Qed.

Lemma converted_take_drop samples from n :
  0 <= from -> (Z.to_nat from + n <= length samples)%nat ->
  converted samples from n
  = map to_int16 (take n (drop (Z.to_nat from) samples)).
Proof.
  intros Hf. unfold converted. generalize (Z.to_nat from) as k. clear Hf.
  intros k. revert k samples.
  induction n as [|n IH]; intros k samples Hl; [reflexivity|].
  cbn [seq map].
  destruct (drop k samples) as [|x rest] eqn:Hd.
  - apply (f_equal length) in Hd. rewrite length_drop in Hd. simpl in Hd. lia.
  - cbn [take map]. f_equal.
    + f_equal. rewrite nth_lookup.
      pose proof (lookup_drop samples k 0) as Hk.
      rewrite Hd, Nat.add_0_r in Hk. cbn in Hk. now rewrite <- Hk.
    + rewrite IH by lia. do 2 f_equal.
      replace (S k) with (k + 1)%nat by lia.
      rewrite <- drop_drop, Hd. reflexivity.
Qed.

Lemma copy_samples_spec (n : nat) :
  forall samples samples_read q,
    0 <= samples_read -> 0 <= send_buffer_cnt q ->
    copy_samples n samples samples_read q
    = ([], Done (samples_read + Z.of_nat n)
             (store_samples (converted samples samples_read n) q)).
Proof.
  induction n as [|n IH]; intros samples sr q Hsr Hc.
  - cbn. now rewrite store_samples_nil, Z.add_0_r.
  - cbn [copy_samples]. rewrite bind_modify.
    rewrite IH by (try lia; destruct q; cbn in *; lia).
    rewrite converted_S by lia. do 2 f_equal; [lia|].
    destruct q. unfold store_samples, set_send_buffer_cnt, set_send_buffer.
    cbn in *. f_equal; [rewrite length_converted; lia|].
    replace (Z.to_nat (send_buffer_cnt0 + 1))
      with (S (Z.to_nat send_buffer_cnt0)) by lia.
    symmetry. apply list_insert_inserts_lt. lia.
Qed.

(** *** The while loop of [writeSamples] *)

Lemma writeSamples_loop_done fuel samples count samples_read q :
  count <= samples_read ->
  writeSamples_loop (S fuel) samples count samples_read q
  = ([], Done samples_read q).
Proof.
  intros H. cbn [writeSamples_loop].
  destruct (Z.ltb_spec samples_read count); [lia|reflexivity].
Qed.

Lemma writeSamples_loop_step fuel samples count samples_read q :
  0 <= samples_read -> 0 <= send_buffer_cnt q -> samples_read < count ->
  writeSamples_loop (S fuel) samples count samples_read q
  = let n := Z.to_nat (Z.min (BUFFER_SIZE hdr - send_buffer_cnt q)
                         (count - samples_read)) in
    let q1 := store_samples (converted samples samples_read n) q in
    let samples_read1 := samples_read + Z.of_nat n in
    if send_buffer_cnt q1 =? BUFFER_SIZE hdr then
      if is_sending_voice q1 then
        bind sendVoiceData
          (fun _ => writeSamples_loop fuel samples count samples_read1) q1
      else ([], Done samples_read1 q1)
    else writeSamples_loop fuel samples count samples_read1 q1.
Proof.
  intros Hsr Hc Hlt. cbn [writeSamples_loop].
  destruct (Z.ltb_spec samples_read count); [|lia].
  rewrite bind_gets.
  rewrite (bind_pure _ _ _ _ _ (copy_samples_spec _ samples _ q Hsr Hc)).
  rewrite bind_gets. cbv zeta.
  destruct (_ =? _); [|reflexivity].
  rewrite bind_gets. now destruct (is_sending_voice _).
Qed.

(** Without the authorisation to transmit the loop makes no call at all:
    it fills the buffer as far as it goes and returns. *)
Lemma writeSamples_loop_muted fuel samples count samples_read q :
  is_sending_voice q = false ->
  0 <= send_buffer_cnt q <= BUFFER_SIZE hdr -> 0 <= samples_read ->
  writeSamples_loop (S (S fuel)) samples count samples_read q
  = let n := Z.to_nat (Z.min (BUFFER_SIZE hdr - send_buffer_cnt q)
                         (count - samples_read)) in
    ([], Done (samples_read + Z.of_nat n)
           (store_samples (converted samples samples_read n) q)).
Proof.
  intros Hs Hc Hsr. cbv zeta.
  destruct (Z.lt_ge_cases samples_read count) as [Hlt|Hge].
  - rewrite writeSamples_loop_step by lia. cbv zeta.
    change (is_sending_voice (store_samples _ q)) with (is_sending_voice q).
    change (send_buffer_cnt (store_samples ?xs q))
      with (send_buffer_cnt q + Z.of_nat (length xs)).
    rewrite length_converted, Hs.
    destruct (_ =? BUFFER_SIZE hdr) eqn:He; [reflexivity|].
    apply Z.eqb_neq in He. apply writeSamples_loop_done. lia.
  - rewrite writeSamples_loop_done by lia.
    replace (Z.to_nat _) with 0%nat by lia.
    cbn [converted seq map]. now rewrite store_samples_nil, Z.add_0_r.
Qed.

Lemma uplink_update_id (q : QsoFrn) :
  uplink_update (send_buffer q) (send_buffer_cnt q) (gsmh q) q = q.
Proof. now destruct q. Qed.

Lemma uplink_update_store b c g xs q :
  uplink_update b c g (store_samples xs q) = uplink_update b c g q.
Proof. now destruct q. Qed.

Lemma uplink_update_sent b c g g' c' q :
  uplink_update b c g (set_send_buffer_cnt c' (set_gsmh g' q))
  = uplink_update b c g q.
Proof. now destruct q. Qed.

Lemma store_samples_uplink xs q :
  store_samples xs q
  = uplink_update
      (list_inserts (Z.to_nat (send_buffer_cnt q)) xs (send_buffer q))
      (send_buffer_cnt q + Z.of_nat (length xs)) (gsmh q) q.
Proof. now destruct q. Qed.

Lemma sendVoiceData_only_writes (q : QsoFrn) :
  only_writes ((if tcp_client q then [TcpWrite TX1] else [])
                 ++ [TcpWrite (voice_payload (gsmh q) (send_buffer q))]).
Proof.
  unfold only_writes. destruct (tcp_client q); repeat constructor.
Qed.

(** The loop returns whenever the fill count is within the array: the
    first pass may find the buffer full, every later pass consumes a
    sample. *)
Lemma writeSamples_loop_total (fuel : nat) :
  forall samples count samples_read q,
    0 < BUFFER_SIZE hdr -> 0 <= samples_read ->
    0 <= send_buffer_cnt q <= BUFFER_SIZE hdr ->
    (Z.to_nat (count - samples_read)
       + (if (send_buffer_cnt q =? BUFFER_SIZE hdr)%Z then 2 else 1)
     <= fuel)%nat ->
    exists es v b c g,
      writeSamples_loop fuel samples count samples_read q
      = (es, Done v (uplink_update b c g q))
      /\ 0 <= c <= BUFFER_SIZE hdr
      /\ length b = length (send_buffer q)
      /\ samples_read <= v <= Z.max samples_read count
      /\ only_writes es.
Proof.
  induction fuel as [|fuel IH]; intros samples count sr q HB Hsr Hc Hfuel.
  - destruct (_ =? _); lia.
  - destruct (Z.lt_ge_cases sr count) as [Hlt|Hge].
    + rewrite writeSamples_loop_step by lia. cbv zeta.
      set (n := Z.to_nat (Z.min (BUFFER_SIZE hdr - send_buffer_cnt q)
                            (count - sr))).
      set (q1 := store_samples (converted samples sr n) q).
      assert (Hc1 : send_buffer_cnt q1 = send_buffer_cnt q + Z.of_nat n).
      { unfold q1. change (send_buffer_cnt (store_samples ?xs q))
          with (send_buffer_cnt q + Z.of_nat (length xs)).
        now rewrite length_converted. }
      assert (Hl1 : length (send_buffer q1) = length (send_buffer q)).
      { unfold q1. change (send_buffer (store_samples ?xs q))
          with (list_inserts (Z.to_nat (send_buffer_cnt q)) xs
                  (send_buffer q)).
        apply length_inserts. }
      assert (Hfuel' : (Z.to_nat (count - (sr + Z.of_nat n)) + 1
                        <= fuel)%nat).
      { destruct (Z.eqb_spec (send_buffer_cnt q) (BUFFER_SIZE hdr)); lia. }
      destruct (Z.eqb_spec (send_buffer_cnt q1) (BUFFER_SIZE hdr))
        as [Hfull|Hnot].
      * destruct (is_sending_voice q1) eqn:Hs.
        -- rewrite (bind_done _ _ _ _ _ _ (sendVoiceData_spec q1 Hfull)).
           set (q2 := set_send_buffer_cnt 0 (set_gsmh _ q1)).
           destruct (IH samples count (sr + Z.of_nat n) q2)
             as (es & v & b & c & g & Hrun & Hcb & Hlen & Hv & Hw);
             try lia.
           { change (send_buffer_cnt q2) with 0. lia. }
           { change (send_buffer_cnt q2) with 0.
             destruct (Z.eqb_spec 0 (BUFFER_SIZE hdr)); lia. }
           rewrite Hrun. cbn [fst snd].
           replace (uplink_update b c g q2) with (uplink_update b c g q)
             by (unfold q2, q1;
                 now rewrite uplink_update_sent, uplink_update_store).
           eexists _, v, b, c, g. split; [|split; [|split; [|split]]].
           ++ reflexivity.
           ++ lia.
           ++ rewrite Hlen. exact Hl1.
           ++ lia.
           ++ apply Forall_app. split; [apply sendVoiceData_only_writes|].
              exact Hw.
        -- exists [], (sr + Z.of_nat n).
           eexists _, _, _. split; [|split; [|split; [|split]]].
           ++ unfold q1. now rewrite store_samples_uplink.
           ++ rewrite length_converted. lia.
           ++ apply length_inserts.
           ++ lia.
           ++ constructor.
      * destruct (IH samples count (sr + Z.of_nat n) q1)
          as (es & v & b & c & g & Hrun & Hcb & Hlen & Hv & Hw); try lia.
        { destruct (Z.eqb_spec (send_buffer_cnt q1) (BUFFER_SIZE hdr)); lia. }
        rewrite Hrun. exists es, v, b, c, g.
        split; [|split; [|split; [|split]]]; try assumption; try lia.
        unfold q1. now rewrite uplink_update_store.
    + rewrite writeSamples_loop_done by lia.
      exists [], sr. eexists _, _, _. split; [|split; [|split; [|split]]].
      * now rewrite uplink_update_id.
      * lia.
      * reflexivity.
      * lia.
      * constructor.
Qed.

(** *** The invariant, unpacked *)

Lemma header_ok_sizes :
  header_ok hdr = true ->
  0 < FRAME_COUNT hdr /\ 0 < PCM_FRAME_SIZE hdr /\ 0 < GSM_FRAME_SIZE hdr
  /\ 0 < BUFFER_SIZE hdr.
Proof.
  unfold header_ok, BUFFER_SIZE. rewrite !andb_true_iff, !Z.ltb_lt. nia.
Qed.

Lemma session_inv_spec (q : QsoFrn) :
  session_inv q = true <->
  0 <= send_buffer_cnt q <= BUFFER_SIZE hdr
  /\ length (send_buffer q) = Z.to_nat (BUFFER_SIZE hdr)
  /\ (online (state q) = true -> tcp_client q = true).
Proof.
  unfold session_inv.
  rewrite !andb_true_iff, !Z.leb_le, Nat.eqb_eq.
  destruct (online (state q)), (tcp_client q); cbn; intuition congruence.
Qed.

Lemma session_inv_logged_in (q : QsoFrn) :
  session_inv q = true -> state q = STATE_LOGGED_IN -> tcp_client q = true.
Proof.
  intros Hi Hs. apply session_inv_spec in Hi as (_ & _ & Ho).
  apply Ho. now rewrite Hs.
Qed.

(** *** writeSamples *)

(** C2: in every state other than LoggedIn, writeSamples(s, n) returns n,
    makes no call on the transport (or on any collaborator) and leaves the
    session, with the fill count of the uplink buffer, as it was. *)
Theorem writeSamples_not_logged_in (q : QsoFrn) (samples : list Q)
    (count : Z) :
  state q <> STATE_LOGGED_IN ->
  writeSamples samples count q = ([], Done count q).
Proof.
  intros Hs. unfold writeSamples. rewrite bind_gets.
  destruct (State_eqb_spec (state q) STATE_LOGGED_IN); [contradiction|].
  reflexivity.
Qed.

(** The loop when the samples fill the buffer exactly and the session is
    authorised to transmit: one pass stores them, the buffer is sent, and
    the next pass finds nothing left. *)
Lemma writeSamples_loop_fill_send fuel samples count q :
  is_sending_voice q = true ->
  0 <= send_buffer_cnt q < BUFFER_SIZE hdr ->
  count = BUFFER_SIZE hdr - send_buffer_cnt q ->
  let xs := converted samples 0 (Z.to_nat count) in
  let q1 := store_samples xs q in
  writeSamples_loop (S (S fuel)) samples count 0 q
  = ((if tcp_client q then [TcpWrite TX1] else [])
       ++ [TcpWrite (voice_payload (gsmh q) (send_buffer q1))],
     Done count
       (set_send_buffer_cnt 0
          (set_gsmh (gsm_after_encode (gsmh q) (send_buffer q1)) q1))).
Proof.
  intros Hs Hc Hcount. cbv zeta.
  rewrite writeSamples_loop_step by lia. cbv zeta.
  replace (Z.min (BUFFER_SIZE hdr - send_buffer_cnt q) (count - 0))
    with count by lia.
  set (q1 := store_samples _ q).
  assert (Hc1 : send_buffer_cnt q1 = BUFFER_SIZE hdr).
  { unfold q1. change (send_buffer_cnt (store_samples ?xs q))
      with (send_buffer_cnt q + Z.of_nat (length xs)).
    rewrite length_converted. lia. }
  rewrite Hc1, Z.eqb_refl.
  change (is_sending_voice q1) with (is_sending_voice q). rewrite Hs.
  rewrite (bind_done _ _ _ _ _ _ (sendVoiceData_spec q1 Hc1)).
  rewrite writeSamples_loop_done by lia.
  cbn [fst snd]. rewrite app_nil_r.
  replace (0 + Z.of_nat (Z.to_nat count)) with count by lia.
  reflexivity.
Qed.

(** C3: LoggedIn, authorised to transmit, empty buffer: writeSamples of
    exactly BUFFER_SIZE samples accepts them all and makes exactly two
    calls, the TX1 token and then, as a write of its own, a payload of
    FRAME_COUNT x GSM_FRAME_SIZE bytes (the encoding of the converted
    samples); the fill count is 0 afterwards. *)
Theorem writeSamples_full_buffer_sent (q : QsoFrn) (samples : list Q) :
  header_ok hdr = true ->
  session_inv q = true ->
  state q = STATE_LOGGED_IN ->
  is_sending_voice q = true ->
  send_buffer_cnt q = 0 ->
  Z.of_nat (length samples) = BUFFER_SIZE hdr ->
  exists payload q',
    writeSamples samples (BUFFER_SIZE hdr) q
    = ([TcpWrite TX1; TcpWrite payload], Done (BUFFER_SIZE hdr) q')
    /\ payload = voice_payload (gsmh q) (map to_int16 samples)
    /\ Z.of_nat (length payload) = FRAME_COUNT hdr * GSM_FRAME_SIZE hdr
    /\ send_buffer_cnt q' = 0.
Proof.
  intros Hh Hi Hst Hs Hc Hlen.
  pose proof (header_ok_sizes Hh) as (Hf & Hp & Hg & HB).
  pose proof (session_inv_logged_in q Hi Hst) as Htcp.
  apply session_inv_spec in Hi as (_ & Hbuf & _).
  unfold writeSamples. rewrite bind_gets, Hst. cbn [State_eqb negb].
  rewrite writeSamples_loop_fill_send; [|exact Hs|lia|lia]. cbv zeta.
  rewrite Htcp. cbn [app].
  assert (Hb : send_buffer
                 (store_samples
                    (converted samples 0 (Z.to_nat (BUFFER_SIZE hdr))) q)
               = map to_int16 samples).
  { change (send_buffer (store_samples ?xs q))
      with (list_inserts (Z.to_nat (send_buffer_cnt q)) xs (send_buffer q)).
    rewrite Hc, converted_take_drop by lia.
    change (Z.to_nat 0) with 0%nat. rewrite drop_0.
    rewrite take_ge by lia.
    rewrite <- (app_nil_r (send_buffer q)).
    rewrite list_inserts_0_r by (rewrite length_map; lia).
    apply app_nil_r. }
  rewrite Hb. eexists _, _. split; [reflexivity|].
  split; [reflexivity|]. split; [|reflexivity].
  apply voice_payload_length; lia.
Qed.

(** C4: LoggedIn, not authorised to transmit, more samples than the buffer
    has room for: writeSamples makes no call, accepts exactly the samples
    that fit (fewer than submitted) and leaves the buffer exactly full: the
    fill count is the capacity, the array has not grown, the samples stored
    before are where they were and the accepted ones follow them.  While
    the authorisation is missing, every further call accepts nothing and
    changes nothing. *)
Theorem writeSamples_backpressure (q : QsoFrn) (samples : list Q) :
  header_ok hdr = true ->
  session_inv q = true ->
  state q = STATE_LOGGED_IN ->
  is_sending_voice q = false ->
  BUFFER_SIZE hdr - send_buffer_cnt q < Z.of_nat (length samples) ->
  let room := BUFFER_SIZE hdr - send_buffer_cnt q in
  let filled := Z.to_nat (send_buffer_cnt q) in
  exists q',
    writeSamples samples (Z.of_nat (length samples)) q
    = ([], Done room q')
    /\ room < Z.of_nat (length samples)
    /\ send_buffer_cnt q' = BUFFER_SIZE hdr
    /\ length (send_buffer q') = Z.to_nat (BUFFER_SIZE hdr)
    /\ take filled (send_buffer q') = take filled (send_buffer q)
    /\ drop filled (send_buffer q')
       = map to_int16 (take (Z.to_nat room) samples)
    /\ is_sending_voice q' = false
    /\ state q' = STATE_LOGGED_IN
    /\ forall samples' count',
         writeSamples samples' count' q' = ([], Done 0 q').
Proof.
  intros Hh Hi Hst Hs Hroom. cbv zeta.
  pose proof (header_ok_sizes Hh) as (Hf & Hp & Hg & HB).
  apply session_inv_spec in Hi as (Hc & Hbuf & _).
  unfold writeSamples at 1. rewrite bind_gets, Hst. cbn [State_eqb negb].
  rewrite writeSamples_loop_muted by (try assumption; lia). cbv zeta.
  replace (Z.min (BUFFER_SIZE hdr - send_buffer_cnt q)
             (Z.of_nat (length samples) - 0))
    with (BUFFER_SIZE hdr - send_buffer_cnt q) by lia.
  set (room := BUFFER_SIZE hdr - send_buffer_cnt q) in *.
  rewrite converted_take_drop by lia.
  change (Z.to_nat 0) with 0%nat. rewrite drop_0.
  set (xs := map to_int16 (take (Z.to_nat room) samples)).
  assert (Hxs : length xs = Z.to_nat room).
  { unfold xs. rewrite length_map, length_take. lia. }
  set (q' := store_samples xs q).
  assert (Hb' : send_buffer q'
                = take (Z.to_nat (send_buffer_cnt q)) (send_buffer q) ++ xs).
  { change (send_buffer q')
      with (list_inserts (Z.to_nat (send_buffer_cnt q)) xs (send_buffer q)).
    rewrite <- (take_drop (Z.to_nat (send_buffer_cnt q)) (send_buffer q))
      at 1.
    replace (Z.to_nat (send_buffer_cnt q))
      with (length (take (Z.to_nat (send_buffer_cnt q)) (send_buffer q)) + 0)%nat
      at 1 by (rewrite length_take; lia).
    rewrite list_inserts_app_r. f_equal.
    rewrite <- (app_nil_r (drop _ _)).
    rewrite list_inserts_0_r by (rewrite length_drop; lia).
    apply app_nil_r. }
  assert (Hc' : send_buffer_cnt q' = BUFFER_SIZE hdr).
  { change (send_buffer_cnt q')
      with (send_buffer_cnt q + Z.of_nat (length xs)). lia. }
  exists q'. split; [f_equal; f_equal; lia|].
  split; [lia|]. split; [exact Hc'|].
  split; [rewrite Hb', length_app, length_take; lia|].
  split; [rewrite Hb', take_app_length'; [reflexivity|rewrite length_take; lia]|].
  split; [rewrite Hb', drop_app_length'; [reflexivity|rewrite length_take; lia]|].
  split; [exact Hs|]. split; [exact Hst|].
  intros samples' count'. unfold writeSamples. rewrite bind_gets.
  change (state q') with (state q). rewrite Hst. cbn [State_eqb negb].
  rewrite writeSamples_loop_muted; [|exact Hs|lia|lia]. cbv zeta.
  rewrite Hc'.
  destruct (Z.lt_ge_cases 0 count').
  - replace (Z.to_nat _) with 0%nat by lia.
    cbn [converted seq map]. now rewrite store_samples_nil.
  - replace (Z.to_nat _) with 0%nat by lia.
    cbn [converted seq map]. now rewrite store_samples_nil.
Qed.

(** Samples that leave room in the buffer are stored behind the ones
    already there, with no call made, whatever the authorisation. *)
Lemma writeSamples_partial (q : QsoFrn) (samples : list Q) :
  state q = STATE_LOGGED_IN ->
  0 <= send_buffer_cnt q ->
  send_buffer_cnt q + Z.of_nat (length samples) < BUFFER_SIZE hdr ->
  writeSamples samples (Z.of_nat (length samples)) q
  = ([], Done (Z.of_nat (length samples))
           (store_samples (map to_int16 samples) q)).
Proof.
  intros Hst Hc Hroom. unfold writeSamples.
  rewrite bind_gets, Hst. cbn [State_eqb negb].
  destruct samples as [|x samples'] eqn:Hsamples.
  - cbn [length Z.of_nat Z.to_nat map]. rewrite writeSamples_loop_done by lia.
    now rewrite store_samples_nil.
  - rewrite <- Hsamples in *.
    assert (0 < Z.of_nat (length samples)) by (subst samples; cbn; lia).
    rewrite writeSamples_loop_step by lia. cbv zeta.
    replace (Z.min _ _) with (Z.of_nat (length samples)) by lia.
    rewrite Nat2Z.id, converted_take_drop by lia.
    change (Z.to_nat 0) with 0%nat. rewrite drop_0, take_ge by lia.
    change (send_buffer_cnt (store_samples ?xs q))
      with (send_buffer_cnt q + Z.of_nat (length xs)).
    rewrite length_map.
    destruct (Z.eqb_spec (send_buffer_cnt q + Z.of_nat (length samples))
                (BUFFER_SIZE hdr)); [lia|].
    rewrite writeSamples_loop_done by lia. reflexivity.
Qed.

(** *** The packing of a payload *)

Lemma units_written (l x y : list ascii) (d : nat) :
  (d + length x + length y <= length l)%nat ->
  take (d + (length x + length y))
    (list_inserts (d + length x) y (list_inserts d x l))
  = take d l ++ x ++ y.
Proof.
  intros Hl. apply list_eq. intros i.
  destruct (Nat.lt_ge_cases i (d + (length x + length y))) as [Hi|Hi].
  - rewrite lookup_take_lt by lia.
    destruct (Nat.lt_ge_cases i d) as [Hd|Hd].
    + rewrite !list_lookup_inserts_lt by lia.
      rewrite lookup_app_l by (rewrite length_take; lia).
      now rewrite lookup_take_lt by lia.
    + rewrite lookup_app_r by (rewrite length_take; lia).
      rewrite length_take. replace (d `min` length l)%nat with d by lia.
      destruct (Nat.lt_ge_cases i (d + length x)) as [Hx|Hx].
      * rewrite list_lookup_inserts_lt by lia.
        rewrite list_lookup_inserts by lia.
        now rewrite lookup_app_l by lia.
      * rewrite list_lookup_inserts by (rewrite ?length_inserts; lia).
        rewrite lookup_app_r by lia. f_equal. lia.
  - rewrite lookup_take_ge by lia. symmetry.
    apply lookup_ge_None_2. rewrite !length_app, length_take. lia.
Qed.

Lemma encode_frames_units (phase : gsm -> bool) (n : nat) :
  forall nframe buf g gsm_data nbytes,
    encoder_alternates phase ->
    GSM_FRAME_SIZE hdr = 65 ->
    phase g = false ->
    0 <= nframe ->
    (Z.to_nat (nframe * 65) + n * 65 <= length gsm_data)%nat ->
    take (Z.to_nat (nframe * 65) + n * 65)
      (snd (fst (encode_frames n nframe buf g gsm_data nbytes)))
    = take (Z.to_nat (nframe * 65)) gsm_data
        ++ concat (encoded_units n nframe buf g)
    /\ phase (fst (fst (encode_frames n nframe buf g gsm_data nbytes)))
       = false
    /\ Forall (fun u => length u = 65%nat) (encoded_units n nframe buf g).
Proof.
  induction n as [|n IH];
    intros nframe buf g gsm_data nbytes Halt HG Hph Hnf Hroom.
  - cbn. rewrite Nat.add_0_r, app_nil_r.
    split; [reflexivity|split; [exact Hph|constructor]].
  - cbn [encode_frames encoded_units]. rewrite HG.
    pose proof (Halt g (drop (Z.to_nat (nframe * PCM_FRAME_SIZE hdr)) buf))
      as [Hp1 Hl1].
    destruct (gsm_encode g _) as [g1 out1]. cbn [fst snd] in Hp1, Hl1.
    pose proof (Halt g1 (drop (Z.to_nat (nframe * PCM_FRAME_SIZE hdr
                                         + PCM_FRAME_SIZE hdr ÷ 2)) buf))
      as [Hp2 Hl2].
    destruct (gsm_encode g1 _) as [g2 out2]. cbn [fst snd] in Hp2, Hl2.
    rewrite Hph in Hp1, Hl1. cbn in Hp1. rewrite Hp1 in Hp2, Hl2.
    cbn in Hp2.
    set (d := Z.to_nat (nframe * 65)) in *.
    replace (Z.to_nat (nframe * 65 + 32)) with (d + length out1)%nat
      by (unfold d; lia).
    set (d2 := list_inserts (d + length out1) out2
                 (list_inserts d out1 gsm_data)).
    assert (Hd2 : length d2 = length gsm_data).
    { unfold d2. now rewrite !length_inserts. }
    assert (Hnext : Z.to_nat ((nframe + 1) * 65) = (d + 65)%nat)
      by (unfold d; lia).
    destruct (IH (nframe + 1) buf g2 d2 (nbytes + 65) Halt HG Hp2)
      as (Htake & Hphase & Hunits); [lia|rewrite Hd2, Hnext; lia|].
    rewrite Hnext in Htake.
    split; [|split].
    + replace (d + S n * 65)%nat with (d + 65 + n * 65)%nat by lia.
      rewrite Htake. cbn [concat].
      replace (d + 65)%nat with (d + (length out1 + length out2))%nat
        by lia.
      unfold d2. rewrite units_written by lia.
      now rewrite <- !app_assoc.
    + exact Hphase.
    + constructor; [rewrite length_app; lia|exact Hunits].
Qed.

Lemma voice_payload_units (phase : gsm -> bool) (g : gsm) (buf : list Z) :
  header_ok hdr = true ->
  encoder_alternates phase ->
  GSM_FRAME_SIZE hdr = 65 ->
  phase g = false ->
  voice_payload g buf
  = concat (encoded_units (Z.to_nat (FRAME_COUNT hdr)) 0 buf g)
  /\ phase (gsm_after_encode g buf) = false
  /\ Forall (fun u => length u = 65%nat)
       (encoded_units (Z.to_nat (FRAME_COUNT hdr)) 0 buf g).
Proof.
  intros Hh Halt HG Hph.
  pose proof (header_ok_sizes Hh) as (Hf & _ & _ & _).
  destruct (encode_frames_units phase (Z.to_nat (FRAME_COUNT hdr)) 0
              buf g gsm_data0 0 Halt HG Hph)
    as (Htake & Hphase & Hunits).
  { lia. }
  { unfold gsm_data0, FRN_AUDIO_PACKET_SIZE.
    rewrite length_replicate, HG. cbn. lia. }
  split; [|split; [exact Hphase|exact Hunits]].
  unfold voice_payload.
  pose proof (encode_frames_nbytes (Z.to_nat (FRAME_COUNT hdr)) 0
                buf g gsm_data0 0) as Hn.
  destruct (encode_frames _ _ _ _ _ _) as [[g' d'] nb].
  cbn [fst snd] in Htake, Hn.
  change (Z.to_nat (0 * 65)) with 0%nat in Htake.
  change (take 0 gsm_data0) with (@nil ascii) in Htake.
  rewrite app_nil_l, Nat.add_0_l in Htake.
  rewrite <- Htake. f_equal. rewrite Hn, HG. lia.
Qed.

(** *** flushSamples *)

Lemma zero_tail_length (n : Z) (buf : list Z) :
  0 <= n -> (Z.to_nat n <= length buf)%nat ->
  length (zero_tail n buf) = length buf.
Proof.
  intros Hn Hl. unfold zero_tail.
  rewrite length_app, length_take, length_replicate. lia.
Qed.

Lemma flushSamples_signals (q : QsoFrn) :
  exists es q',
    flushSamples q = (es ++ [SourceAllSamplesFlushed], Done tt q').
Proof.
  unfold flushSamples. rewrite !bind_gets.
  destruct (State_eqb (state q) STATE_LOGGED_IN && (0 <? send_buffer_cnt q)).
  - repeat (rewrite bind_assoc || rewrite bind_modify). cbv beta.
    set (q1 := set_send_buffer_cnt (BUFFER_SIZE hdr) _).
    rewrite (bind_done _ _ _ _ _ _ (sendVoiceData_spec q1 eq_refl)).
    unfold sendRequest, bind, gets, modify, emit, ret. cbn.
    destruct (tcp_client q); cbn;
      [eexists [_; _; _], _|eexists [_], _]; reflexivity.
  - exists [], q. reflexivity.
Qed.

(** C5: LoggedIn with a partly filled buffer (0 < fill count <
    BUFFER_SIZE): flushSamples pads the array with zeros behind the stored
    samples, makes exactly one payload write (the encoding of the padded
    array, announced by TX1), then writes the TX0 token, clears the
    transmitting flag whatever it was, and signals the completion of the
    flush as its last call.  With an encoder that alternates between 32 and
    33 bytes and a packed unit of 65 bytes, the payload is made of the
    outputs of the encoder on the half-frames of the padded array, one
    after the other: for each of the FRAME_COUNT frames, what the encoder
    yields on its first half and then on its second half.  In every state,
    whatever the session, flushSamples returns and its last call is that
    signal.  Samples submitted to an empty buffer are the stored samples
    of the padded array. *)
Theorem flushSamples_partial_buffer (q : QsoFrn) :
  header_ok hdr = true ->
  session_inv q = true ->
  state q = STATE_LOGGED_IN ->
  0 < send_buffer_cnt q < BUFFER_SIZE hdr ->
  let filled := Z.to_nat (send_buffer_cnt q) in
  let padded :=
    take filled (send_buffer q)
      ++ replicate (Z.to_nat (BUFFER_SIZE hdr) - filled) 0 in
  (exists q',
     flushSamples q
     = ([TcpWrite TX1; TcpWrite (voice_payload (gsmh q) padded);
         TcpWrite TX0; SourceAllSamplesFlushed], Done tt q')
     /\ length padded = Z.to_nat (BUFFER_SIZE hdr)
     /\ Z.of_nat (length (voice_payload (gsmh q) padded))
        = FRAME_COUNT hdr * GSM_FRAME_SIZE hdr
     /\ (forall phase : gsm -> bool,
           encoder_alternates phase ->
           GSM_FRAME_SIZE hdr = 65 ->
           phase (gsmh q) = false ->
           voice_payload (gsmh q) padded
           = concat (encoded_units (Z.to_nat (FRAME_COUNT hdr)) 0 padded
                       (gsmh q)))
     /\ is_sending_voice q' = false
     /\ send_buffer_cnt q' = 0
     /\ state q' = STATE_LOGGED_IN)
  /\ (forall q0 : QsoFrn,
        exists es q0',
          flushSamples q0 = (es ++ [SourceAllSamplesFlushed], Done tt q0'))
  /\ (forall (q0 : QsoFrn) (samples : list Q),
        session_inv q0 = true ->
        state q0 = STATE_LOGGED_IN ->
        send_buffer_cnt q0 = 0 ->
        Z.of_nat (length samples) < BUFFER_SIZE hdr ->
        exists q1,
          writeSamples samples (Z.of_nat (length samples)) q0
          = ([], Done (Z.of_nat (length samples)) q1)
          /\ send_buffer_cnt q1 = Z.of_nat (length samples)
          /\ take (length samples) (send_buffer q1) = map to_int16 samples).
Proof.
  intros Hh Hi Hst Hc. cbv zeta.
  pose proof (header_ok_sizes Hh) as (Hf & Hp & Hg & HB).
  pose proof (session_inv_logged_in q Hi Hst) as Htcp.
  apply session_inv_spec in Hi as (_ & Hbuf & _).
  split; [|split].
  - unfold flushSamples. rewrite !bind_gets, Hst.
    destruct (Z.ltb_spec 0 (send_buffer_cnt q)); [|lia].
    cbn [State_eqb andb].
    repeat (rewrite bind_assoc || rewrite bind_modify). cbv beta.
    set (q1 := set_send_buffer_cnt (BUFFER_SIZE hdr) _).
    rewrite (bind_done _ _ _ _ _ _ (sendVoiceData_spec q1 eq_refl)).
    unfold sendRequest, bind, gets, modify, emit, ret. cbn.
    rewrite Htcp. cbn. unfold zero_tail. rewrite Hbuf.
    eexists. split; [reflexivity|].
    split; [rewrite length_app, length_take, length_replicate; lia|].
    split; [apply voice_payload_length; lia|].
    split.
    { intros phase Halt HG Hph.
      now destruct (voice_payload_units phase (gsmh q)
                      (take (Z.to_nat (send_buffer_cnt q)) (send_buffer q)
                         ++ replicate (Z.to_nat (BUFFER_SIZE hdr)
                                       - Z.to_nat (send_buffer_cnt q)) 0)
                      Hh Halt HG Hph) as [Hpay _]. }
    repeat split. exact Hst.
  - apply flushSamples_signals.
  - intros q0 samples Hi0 Hst0 Hc0 Hlen.
    apply session_inv_spec in Hi0 as (_ & Hbuf0 & _).
    rewrite writeSamples_partial; [|exact Hst0|lia|lia].
    eexists. split; [reflexivity|].
    change (send_buffer_cnt (store_samples ?xs q0))
      with (send_buffer_cnt q0 + Z.of_nat (length xs)).
    change (send_buffer (store_samples ?xs q0))
      with (list_inserts (Z.to_nat (send_buffer_cnt q0)) xs
              (send_buffer q0)).
    rewrite length_map, Hc0. split; [lia|].
    change (Z.to_nat 0) with 0%nat.
    rewrite <- (take_drop (length samples) (send_buffer q0)).
    rewrite list_inserts_0_r
      by (rewrite length_map, length_take; lia).
    rewrite take_app_length'; [reflexivity|now rewrite length_map].
Qed.

(** *** squelchOpen and disconnect *)

(** C10: squelchOpen(false) makes no call and leaves the session as it was
    (state, flags, fill count and all); squelchOpen(true) changes no member
    either and writes the TX0 token, once, when the transport is open. *)
Theorem squelchOpen_closing_is_noop (q : QsoFrn) :
  squelchOpen false q = ([], Done tt q)
  /\ squelchOpen true q
     = ((if tcp_client q then [TcpWrite TX0] else []), Done tt q).
Proof.
  split; [reflexivity|].
  unfold squelchOpen, sendRequest. rewrite bind_gets.
  now destruct (tcp_client q).
Qed.

(** C9: disconnect returns in every state and leaves the session
    Disconnected with both timers disabled and the transport closed; it
    calls the transport's disconnect exactly when the transport was open;
    a second call right after makes no call and changes nothing. *)
Theorem disconnect_idempotent (q : QsoFrn) :
  exists es q1,
    disconnect q = (es, Done tt q1)
    /\ state q1 = STATE_DISCONNECTED
    /\ keep_alive_timer q1 = false
    /\ con_timeout_timer q1 = false
    /\ tcp_client q1 = false
    /\ filter (fun e => is_TcpDisconnect e = true) es
       = (if tcp_client q then [TcpDisconnect] else [])
    /\ disconnect q1 = ([], Done tt q1).
Proof.
  unfold disconnect, setState, bind, gets, modify, emit, ret.
  destruct q as [io sv rv tcp ka ct st rc sc g sb rb o]. cbn.
  destruct st, tcp; cbn; eexists _, _; repeat split.
Qed.

(** *** Inbound data *)

Lemma header_ok_voice_code :
  header_ok hdr = true ->
  (DT_VOICE_BUFFER hdr =? DT_IDLE hdr) = false
  /\ (DT_VOICE_BUFFER hdr =? DT_DO_TX hdr) = false.
Proof.
  unfold header_ok, response_codes. cbn [distinctb forallb].
  rewrite !andb_true_iff, !negb_true_iff.
  rewrite (Z.eqb_sym (DT_VOICE_BUFFER hdr) (DT_IDLE hdr)).
  rewrite (Z.eqb_sym (DT_VOICE_BUFFER hdr) (DT_DO_TX hdr)).
  intuition.
Qed.

(** C6: LoggedIn, an inbound message whose first byte is the voice-payload
    code and whose length is not FRN_AUDIO_PACKET_SIZE + 3: the inactivity
    timer is reset and nothing else is called (no sample reaches the sink,
    nothing goes to cerr or to the transport); the state, the transmit
    flag, the buffers, the timers and the codec are as before, the only
    member written being the informational receiving flag. *)
Theorem short_voice_packet_dropped (q : QsoFrn) (data : list ascii)
    (len : Z) :
  header_ok hdr = true ->
  state q = STATE_LOGGED_IN ->
  first_byte data = DT_VOICE_BUFFER hdr ->
  len <> FRN_AUDIO_PACKET_SIZE hdr + 3 ->
  onDataReceived data len q
  = ([TimerReset], Done len (set_is_receiving_voice true q))
  /\ state (set_is_receiving_voice true q) = state q
  /\ is_sending_voice (set_is_receiving_voice true q) = is_sending_voice q
  /\ send_buffer_cnt (set_is_receiving_voice true q) = send_buffer_cnt q
  /\ receive_buffer (set_is_receiving_voice true q) = receive_buffer q.
Proof.
  intros Hh Hst Hcmd Hlen.
  destruct (header_ok_voice_code Hh) as [Hidle Htx].
  split; [|repeat split].
  unfold onDataReceived, handleResponse, handleAudioData.
  rewrite Hcmd, Hidle, Htx, Z.eqb_refl.
  destruct (Z.eqb_spec len (FRN_AUDIO_PACKET_SIZE hdr + 3)); [contradiction|].
  unfold bind, gets, modify, emit, ret. rewrite Hst. reflexivity.
Qed.

(** *** The login handshake *)

Lemma string_app_assoc (a b c : string) :
  ((a ++ b) ++ c = a ++ (b ++ c))%string.
Proof. induction a as [|x a IH]; cbn; [reflexivity|now rewrite IH]. Qed.

Lemma login_request_segments (o : Options) :
  login_request o = composite_login o.
Proof.
  unfold login_request, composite_login, identity_fields, tagged.
  cbn. rewrite !string_app_assoc. reflexivity.
Qed.

(** C8: when the transport reports a successful connect, exactly one write
    is made, the login request: "CT:" and the ten identity fields as tagged
    segments in the order version, email, credential, callsign and user,
    client type, band and channel, description, country, locality,
    network, ended by a line break.  The failure counter is zero, the
    inactivity timer enabled and the state LoggingIn.  Any inbound message
    then leads to LoggingIn2 with no write, and any second one to LoggedIn,
    with the keep-alive timer enabled and the RX0 token as the only
    write. *)
Theorem login_handshake (q : QsoFrn) (data1 data2 : list ascii) :
  exists es0 q1 es1 q2 es2 q3,
    deliver TcpConnected q = (es0, Done tt q1)
    /\ tcp_writes es0 = [token (composite_login (opts q)) ++ endl]
    /\ state q1 = STATE_LOGGING_IN
    /\ connect_retry_cnt q1 = 0
    /\ con_timeout_timer q1 = true
    /\ deliver (TcpDataReceived data1) q1 = (es1, Done tt q2)
    /\ tcp_writes es1 = []
    /\ state q2 = STATE_LOGGING_IN_2
    /\ deliver (TcpDataReceived data2) q2 = (es2, Done tt q3)
    /\ tcp_writes es2 = [RX0]
    /\ state q3 = STATE_LOGGED_IN
    /\ keep_alive_timer q3 = true.
Proof.
  rewrite <- login_request_segments.
  destruct q as [io sv rv tcp ka ct st rc sc g sb rb o].
  unfold deliver, onConnected, onDataReceived, login, sendRequest, setState,
    bind, gets, modify, emit, ret.
  destruct st; cbn -[login_request]; eexists _, _, _, _, _, _;
    repeat (split; [reflexivity|]); reflexivity.
Qed.

(** *** The reconnect policy *)

(** One transient disconnect: below the ceiling the failure counter is
    incremented and one connect attempt made; at or above it the session
    goes to Error and no attempt is made. *)
Lemma transient_disconnect (q : QsoFrn) (r : DisconnectReason) :
  transient r = true ->
  exists es q',
    deliver (TcpDisconnected r) q = (es, Done tt q')
    /\ connect_retry_cnt q' = connect_retry_cnt q + 1
    /\ connect_attempts es
       = (if connect_retry_cnt q <? MAX_CONNECT_RETRY_CNT hdr
          then 1%nat else 0%nat)
    /\ state q'
       = (if connect_retry_cnt q <? MAX_CONNECT_RETRY_CNT hdr
          then STATE_CONNECTING else STATE_ERROR).
Proof.
  intros Hr.
  destruct q as [io sv rv tcp ka ct st rc sc g sb rb o].
  unfold deliver, onDisconnected, reconnect, connect, setState,
    bind, gets, modify, emit, ret.
  destruct r; try discriminate Hr; destruct st; cbn;
    destruct (rc <? MAX_CONNECT_RETRY_CNT hdr); cbn;
    eexists _, _; repeat (split; [reflexivity|]); reflexivity.
Qed.

Local Ltac same_guard :=
  match goal with
  | |- (if ?a <? _ then _ else _) = (if ?b <? _ then _ else _) =>
    replace b with a by (cbn [length]; lia); reflexivity
  end.

Lemma disconnects_transient (rs : list DisconnectReason) :
  forall q,
    forallb transient rs = true ->
    exists ts q',
      disconnects rs q = (ts, Some q')
      /\ length ts = length rs
      /\ connect_retry_cnt q'
         = connect_retry_cnt q + Z.of_nat (length rs)
      /\ (forall i t,
            ts !! i = Some t ->
            connect_attempts t
            = if connect_retry_cnt q + Z.of_nat i
                 <? MAX_CONNECT_RETRY_CNT hdr
              then 1%nat else 0%nat)
      /\ (rs <> [] ->
          state q'
          = if connect_retry_cnt q + Z.of_nat (length rs) - 1
               <? MAX_CONNECT_RETRY_CNT hdr
            then STATE_CONNECTING else STATE_ERROR).
Proof.
  induction rs as [|r rs IH]; intros q Hrs.
  - exists [], q. cbn. repeat split; try lia.
    + intros i t Hi. discriminate Hi.
    + congruence.
  - cbn [forallb] in Hrs. apply andb_true_iff in Hrs as [Hr Hrs].
    destruct (transient_disconnect q r Hr) as (es & q1 & Hd & Hc & Ha & Hs).
    destruct (IH q1 Hrs) as (ts & q' & Hds & Hl & Hc' & Hts & Hs').
    cbn [disconnects]. rewrite Hd. cbn. rewrite Hds.
    exists (es :: ts), q'. repeat split.
    + cbn. now rewrite Hl.
    + rewrite Hc', Hc. cbn [length]. lia.
    + intros [|i] t Hi; cbn in Hi.
      * injection Hi as <-. now rewrite Z.add_0_r.
      * rewrite (Hts i t Hi), Hc. same_guard.
    + intros _. destruct rs as [|r' rs'].
      * cbn in Hds. injection Hds as _ <-. rewrite Hs. same_guard.
      * rewrite Hs' by congruence. rewrite Hc. same_guard.
Qed.

(** After exactly K consecutive transient disconnects, K > 0, the session
    is Connecting: the K-th disconnect was followed by a connect attempt. *)
Lemma ceiling_disconnects_still_connecting (q : QsoFrn)
    (rs : list DisconnectReason) :
  0 < MAX_CONNECT_RETRY_CNT hdr ->
  connect_retry_cnt q = 0 ->
  forallb transient rs = true ->
  Z.of_nat (length rs) = MAX_CONNECT_RETRY_CNT hdr ->
  exists ts q',
    disconnects rs q = (ts, Some q') /\ state q' = STATE_CONNECTING.
Proof.
  intros HK Hc Hrs Hn.
  destruct (disconnects_transient rs q Hrs)
    as (ts & q' & Hd & _ & _ & _ & Hs).
  exists ts, q'. split; [exact Hd|].
  rewrite Hs by (destruct rs; cbn in *; [lia|congruence]).
  rewrite Hc. destruct (Z.ltb_spec (0 + Z.of_nat (length rs) - 1)
                          (MAX_CONNECT_RETRY_CNT hdr)); [reflexivity|lia].
Qed.

(** C1, as the code has it: in a run of consecutive transient disconnects
    that starts with the failure counter at zero, each of the first
    K = MAX_CONNECT_RETRY_CNT disconnects is followed by exactly one
    connect attempt and leaves the state Connecting; the disconnect after
    them, and every later one, is followed by no connect attempt and
    leaves the state Error. *)
Theorem reconnect_policy (q : QsoFrn) (rs : list DisconnectReason) :
  0 <= MAX_CONNECT_RETRY_CNT hdr ->
  connect_retry_cnt q = 0 ->
  forallb transient rs = true ->
  exists ts q',
    disconnects rs q = (ts, Some q')
    /\ length ts = length rs
    /\ (forall i t,
          ts !! i = Some t ->
          connect_attempts t
          = if Z.of_nat i <? MAX_CONNECT_RETRY_CNT hdr
            then 1%nat else 0%nat)
    /\ (0 < Z.of_nat (length rs) <= MAX_CONNECT_RETRY_CNT hdr ->
        state q' = STATE_CONNECTING)
    /\ (MAX_CONNECT_RETRY_CNT hdr < Z.of_nat (length rs) ->
        state q' = STATE_ERROR).
Proof.
  intros HK Hc Hrs.
  destruct (disconnects_transient rs q Hrs)
    as (ts & q' & Hd & Hl & _ & Hts & Hs).
  rewrite Hc in Hts, Hs. exists ts, q'. repeat split; try assumption.
  - intros Hn. rewrite Hs by (destruct rs; cbn in *; [lia|congruence]).
    destruct (Z.ltb_spec (0 + Z.of_nat (length rs) - 1)
                (MAX_CONNECT_RETRY_CNT hdr)); [reflexivity|lia].
  - intros Hn. rewrite Hs by (destruct rs; cbn in *; [lia|congruence]).
    destruct (Z.ltb_spec (0 + Z.of_nat (length rs) - 1)
                (MAX_CONNECT_RETRY_CNT hdr)); [lia|reflexivity].
Qed.

(** *** The conversion of a sample *)

Lemma Qltb_lt (x y : Q) : Qltb x y = true <-> (x < y)%Q.
Proof.
  unfold Qltb. rewrite negb_true_iff. split.
  - intros H. apply Qnot_le_lt. intros Hle.
    apply Qle_bool_iff in Hle. congruence.
  - intros H. destruct (Qle_bool y x) eqn:E; [|reflexivity].
    apply Qle_bool_iff in E. exfalso. exact (Qlt_not_le _ _ H E).
Qed.

Lemma Qltb_ge (x y : Q) : Qltb x y = false <-> (y <= x)%Q.
Proof.
  unfold Qltb. rewrite negb_false_iff. apply Qle_bool_iff.
Qed.

(** Truncation toward zero: the quotient is within one of the exact ratio
    and not larger in magnitude. *)
Lemma quot_truncates (a d : Z) :
  0 < d ->
  Z.abs (a - (a ÷ d) * d) < d /\ Z.abs ((a ÷ d) * d) <= Z.abs a.
Proof.
  intros Hd. pose proof (Z.quot_rem' a d) as Hqr.
  replace (a - a ÷ d * d) with (Z.rem a d) by lia.
  replace (a ÷ d * d) with (a - Z.rem a d) by lia.
  destruct (Z.le_gt_cases 0 a) as [Ha|Ha].
  - pose proof (Z.rem_bound_pos_pos a d Hd Ha).
    pose proof (Z.rem_le a d Ha Hd). lia.
  - pose proof (Z.rem_bound_pos_neg a d Hd ltac:(lia)).
    pose proof (Z.rem_le (- a) d ltac:(lia) Hd) as Hle.
    rewrite Z.rem_opp_l in Hle by lia. lia.
Qed.

(** C7, as the code has it: a sample x >= 1.0 is stored as 32767, the
    largest 16-bit value; a sample x <= -1.0 is stored as -32767, the
    negated full-scale factor, and not as the most negative 16-bit value
    -32768, which is never produced; a sample strictly between -1.0 and 1.0
    is stored as 32767 * x truncated toward zero, less than one away from
    the exact product.  While LoggedIn, writeSamples stores that value at
    the fill position of the buffer. *)
Theorem sample_conversion (x : Q) :
  ((1 <= x)%Q -> to_int16 x = INT16_MAX)
  /\ ((x <= -1)%Q -> to_int16 x = - INT16_MAX)
  /\ ((-1 < x)%Q -> (x < 1)%Q ->
      to_int16 x = Qtrunc (32767 * x)%Q
      /\ (Qabs (32767 * x - inject_Z (to_int16 x)) < 1)%Q
      /\ Z.abs (to_int16 x) < INT16_MAX)
  /\ INT16_MIN < to_int16 x <= INT16_MAX
  /\ (forall q : QsoFrn,
        session_inv q = true ->
        state q = STATE_LOGGED_IN ->
        send_buffer_cnt q + 1 < BUFFER_SIZE hdr ->
        exists q',
          writeSamples [x] 1 q = ([], Done 1 q')
          /\ send_buffer q' !! Z.to_nat (send_buffer_cnt q)
             = Some (to_int16 x)
          /\ send_buffer_cnt q' = send_buffer_cnt q + 1).
Proof.
  assert (Hmid : (-1 <= x)%Q -> (x <= 1)%Q ->
                 to_int16 x = Qtrunc (32767 * x)%Q).
  { intros Hlo Hhi. unfold to_int16.
    apply Qltb_ge in Hhi. apply Qltb_ge in Hlo. now rewrite Hhi, Hlo. }
  assert (Htr : Qtrunc (32767 * x)%Q = (32767 * Qnum x) ÷ Zpos (Qden x)).
  { destruct x as [n d]. reflexivity. }
  assert (Hrange : (-1 <= x)%Q -> (x <= 1)%Q ->
                   - 32767 <= Qtrunc (32767 * x)%Q <= 32767).
  { intros Hlo Hhi. rewrite Htr. destruct x as [n d].
    unfold Qle in Hlo, Hhi. cbn in Hlo, Hhi. cbn [Qnum Qden].
    pose proof (quot_truncates (32767 * n) (Zpos d) ltac:(lia)) as [H1 H2].
    nia. }
  split; [|split; [|split; [|split]]].
  - intros H1. unfold to_int16, INT16_MAX.
    destruct (Qltb 1 x) eqn:E1; [reflexivity|].
    apply Qltb_ge in E1.
    assert (Hlo : (-1 <= x)%Q).
    { apply Qle_trans with (y := 1%Q); [discriminate|exact H1]. }
    apply Qltb_ge in Hlo. rewrite Hlo, Htr. destruct x as [n d].
    unfold Qle in H1, E1. cbn in H1, E1. cbn [Qnum Qden].
    replace n with (Zpos d) by lia. apply Z.quot_mul. lia.
  - intros H1. unfold to_int16, INT16_MAX.
    assert (Hhi : (x <= 1)%Q).
    { apply Qle_trans with (y := (-1)%Q); [exact H1|discriminate]. }
    apply Qltb_ge in Hhi. rewrite Hhi.
    destruct (Qltb x (-1)) eqn:E1; [reflexivity|].
    apply Qltb_ge in E1. rewrite Htr. destruct x as [n d].
    unfold Qle in H1, E1. cbn in H1, E1. cbn [Qnum Qden].
    replace (32767 * n) with ((-32767) * Zpos d) by lia.
    apply Z.quot_mul. lia.
  - intros Hlo Hhi.
    pose proof (Hmid (Qlt_le_weak _ _ Hlo) (Qlt_le_weak _ _ Hhi)) as Hx.
    split; [exact Hx|]. rewrite Hx, Htr. destruct x as [n d].
    unfold Qlt in Hlo, Hhi. cbn in Hlo, Hhi.
    pose proof (quot_truncates (32767 * n) (Zpos d) ltac:(lia)) as [H1 H2].
    split.
    + unfold Qlt, Qabs, Qminus, Qplus, Qopp, Qmult, inject_Z.
      cbn [Qnum Qden]. rewrite Pos.mul_1_r, !Z.mul_1_r, Z.mul_1_l.
      cbn [Qnum Qden]. change (1 * d)%positive with d.
      match goal with
      | |- Z.abs ?e < _ =>
        replace e with (32767 * n - (32767 * n ÷ Z.pos d) * Z.pos d) by lia
      end.
      exact H1.
    + cbn [Qnum Qden]. unfold INT16_MAX. nia.
  - unfold INT16_MIN, INT16_MAX, to_int16.
    destruct (Qltb 1 x) eqn:E1; [lia|].
    destruct (Qltb x (-1)) eqn:E2; [lia|].
    apply Qltb_ge in E1. apply Qltb_ge in E2.
    pose proof (Hrange E2 E1). lia.
  - intros q Hi Hst Hroom.
    apply session_inv_spec in Hi as (Hc & Hbuf & _).
    pose proof (writeSamples_partial q [x] Hst ltac:(lia)
                  ltac:(cbn [length]; lia)) as Hw.
    cbn [length] in Hw. change (Z.of_nat 1) with 1 in Hw. rewrite Hw.
    eexists. split; [reflexivity|].
    change (send_buffer_cnt (store_samples ?xs q))
      with (send_buffer_cnt q + Z.of_nat (length xs)).
    change (send_buffer (store_samples ?xs q))
      with (list_inserts (Z.to_nat (send_buffer_cnt q)) xs (send_buffer q)).
    split; [|reflexivity].
    cbn [map list_inserts]. apply list_lookup_insert_eq. lia.
Qed.

(** *** The invariant is kept by every event *)

Lemma session_inv_frame (q q' : QsoFrn) :
  session_inv q = true ->
  state q' = state q ->
  tcp_client q' = tcp_client q ->
  0 <= send_buffer_cnt q' <= BUFFER_SIZE hdr ->
  length (send_buffer q') = length (send_buffer q) ->
  session_inv q' = true.
Proof.
  intros Hi Hs Ht Hc Hl. apply session_inv_spec.
  apply session_inv_spec in Hi as (_ & Hbuf & Ho).
  rewrite Hs, Ht, Hl. auto.
Qed.

Lemma decode_frames_spec (n : nat) :
  forall frameno gsm_data pcm_buffer q,
    exists es g rb,
      decode_frames n frameno gsm_data pcm_buffer q
      = (es, Done tt (set_gsmh g (set_receive_buffer rb q)))
      /\ length es = n
      /\ Forall (fun e => is_SinkWrite e = true) es.
Proof.
  induction n as [|n IH]; intros frameno gsm_data pcm_buffer q.
  - exists [], (gsmh q), (receive_buffer q). split; [|split].
    + now destruct q.
    + reflexivity.
    + constructor.
  - cbn [decode_frames]. rewrite bind_gets.
    destruct (gsm_decode (gsmh q) _) as [g1 pcm1].
    destruct (gsm_decode g1 _) as [g2 pcm2].
    rewrite bind_modify, bind_gets. cbv beta.
    set (q1 := set_gsmh g2 _).
    destruct (IH (frameno + 1) gsm_data (pcm_buffer + PCM_FRAME_SIZE hdr) q1)
      as (es & g & rb & Hrun & Hlen & Hsink).
    unfold bind at 1. unfold emit at 1. rewrite Hrun.
    replace (set_gsmh g (set_receive_buffer rb q1))
      with (set_gsmh g (set_receive_buffer rb q))
      by (unfold q1; now destruct q).
    eexists _, g, rb. split; [reflexivity|]. split.
    + cbn. now rewrite Hlen.
    + constructor; [reflexivity|exact Hsink].
Qed.

(** [writeSamples] returns, for any samples and any count: the fuel of
    the loop is enough.  It keeps the invariant and calls nothing but the
    transport's write. *)
Lemma writeSamples_returns (q : QsoFrn) (samples : list Q) (count : Z) :
  header_ok hdr = true ->
  session_inv q = true ->
  exists es v q',
    writeSamples samples count q = (es, Done v q')
    /\ session_inv q' = true
    /\ only_writes es.
Proof.
  intros Hh Hi.
  pose proof (header_ok_sizes Hh) as (_ & _ & _ & HB).
  unfold writeSamples. rewrite bind_gets.
  destruct (State_eqb (state q) STATE_LOGGED_IN); cbn [negb].
  - pose proof Hi as Hi'. apply session_inv_spec in Hi' as (Hc & Hbuf & _).
    destruct (writeSamples_loop_total (S (S (Z.to_nat count))) samples count
                0 q HB ltac:(lia) Hc)
      as (es & v & b & c & g & Hrun & Hcb & Hlen & Hv & Hw).
    { destruct (_ =? _)%Z; lia. }
    rewrite Hrun. eexists _, _, _. split; [reflexivity|]. split.
    + apply (session_inv_frame q); try assumption; reflexivity.
    + exact Hw.
  - exists [], count, q. repeat split; [assumption|constructor].
Qed.

Lemma flushSamples_inv (q : QsoFrn) :
  session_inv q = true ->
  exists es q',
    flushSamples q = (es, Done tt q') /\ session_inv q' = true.
Proof.
  intros Hi. pose proof Hi as Hi'.
  apply session_inv_spec in Hi' as (Hc & Hbuf & _).
  unfold flushSamples. rewrite !bind_gets.
  destruct (State_eqb (state q) STATE_LOGGED_IN && (0 <? send_buffer_cnt q)).
  - repeat (rewrite bind_assoc || rewrite bind_modify). cbv beta.
    set (q1 := set_send_buffer_cnt (BUFFER_SIZE hdr) _).
    rewrite (bind_done _ _ _ _ _ _ (sendVoiceData_spec q1 eq_refl)).
    unfold sendRequest, bind, gets, modify, emit, ret. cbn.
    destruct (tcp_client q); cbn; eexists _, _; (split; [reflexivity|]);
      apply (session_inv_frame q); try assumption; try reflexivity;
      cbn; try lia; apply zero_tail_length; lia.
  - exists [SourceAllSamplesFlushed], q. split; [reflexivity|assumption].
Qed.

Lemma onDataReceived_inv (q : QsoFrn) (data : list ascii) (len : Z) :
  session_inv q = true ->
  exists es q',
    onDataReceived data len q = (es, Done len q')
    /\ session_inv q' = true.
Proof.
  intros Hi. pose proof Hi as Hi'.
  apply session_inv_spec in Hi' as (Hc & Hbuf & Ho).
  unfold onDataReceived. unfold bind at 1. unfold emit at 1.
  rewrite bind_gets.
  destruct (state q) eqn:Hst.
  1-3, 7: eexists _, q; split; [reflexivity|assumption].
  - (* LoggingIn *)
    unfold setState, bind, gets, modify, emit, ret. rewrite Hst. cbn.
    eexists _, _. split; [reflexivity|].
    apply session_inv_spec. cbn. auto.
  - (* LoggingIn2 *)
    unfold setState, sendRequest, bind, gets, modify, emit, ret.
    rewrite Hst. cbn. rewrite (Ho eq_refl). cbn.
    eexists _, _. split; [reflexivity|].
    apply session_inv_spec. cbn. auto.
  - (* LoggedIn *)
    unfold handleResponse.
    destruct (_ =? DT_IDLE hdr);
      [eexists _, q; split; [reflexivity|assumption]|].
    destruct (_ =? DT_DO_TX hdr).
    { unfold bind, gets, modify, emit, ret. cbn. eexists _, _.
      split; [reflexivity|].
      apply (session_inv_frame q); try assumption; reflexivity. }
    destruct (_ =? DT_VOICE_BUFFER hdr).
    { repeat (rewrite bind_assoc || rewrite bind_modify).
      unfold handleAudioData.
      destruct (negb _).
      - cbn. eexists _, _. split; [reflexivity|].
        apply (session_inv_frame q); try assumption; reflexivity.
      - destruct (decode_frames_spec (Z.to_nat (FRAME_COUNT hdr)) 0
                    (drop 3 data) 0 (set_is_receiving_voice true q))
          as (es & g & rb & Hrun & _).
        unfold bind. rewrite Hrun. cbn. eexists _, _.
        split; [reflexivity|].
        apply (session_inv_frame q); try assumption; reflexivity. }
    destruct (existsb _ _);
      eexists _, q; (split; [reflexivity|assumption]).
Qed.

(** Every event is handled to the end and keeps the invariant. *)
Lemma deliver_inv (e : Event) (q : QsoFrn) :
  header_ok hdr = true ->
  session_inv q = true ->
  exists es q',
    deliver e q = (es, Done tt q') /\ session_inv q' = true.
Proof.
  intros Hh Hi. destruct e as [| |samples| |is_open| |reason|data| |].
  3: { cbn [deliver].
       destruct (writeSamples_returns q samples (Z.of_nat (length samples))
                   Hh Hi) as (es & v & q' & Hrun & Hi' & _).
       rewrite (bind_done _ _ _ _ _ _ Hrun). cbn. rewrite app_nil_r.
       eauto. }
  3: { apply flushSamples_inv, Hi. }
  6: { cbn [deliver].
       destruct (onDataReceived_inv q data (Z.of_nat (length data)) Hi)
         as (es & q' & Hrun & Hi').
       rewrite (bind_done _ _ _ _ _ _ Hrun). cbn. rewrite app_nil_r.
       eauto. }
  all: apply session_inv_spec in Hi as (Hc & Hbuf & Ho);
    destruct q as [io sv rv tcp ka ct st rc sc g sb rb o];
    cbn in Hc, Hbuf, Ho;
    unfold deliver, connect, disconnect, squelchOpen, onConnected,
      onDisconnected, onKeepaliveTimeout, onConnectTimeout, reconnect,
      connect, login, sendRequest, setState, bind, gets, modify, emit, ret.
  - destruct st; cbn; eexists _, _; (split; [reflexivity|]);
      apply session_inv_spec; cbn; auto.
  - destruct st, tcp; cbn; eexists _, _; (split; [reflexivity|]);
      apply session_inv_spec; cbn; auto.
  - destruct is_open, tcp; cbn; eexists _, _; (split; [reflexivity|]);
      apply session_inv_spec; cbn; auto.
  - destruct st; cbn; eexists _, _; (split; [reflexivity|]);
      apply session_inv_spec; cbn; auto.
  - destruct reason, st; cbn;
      try destruct (rc <? MAX_CONNECT_RETRY_CNT hdr); cbn;
      eexists _, _; (split; [reflexivity|]);
      apply session_inv_spec; cbn; auto.
  - destruct ka, tcp; cbn; eexists _, _; (split; [reflexivity|]);
      apply session_inv_spec; cbn; auto.
  - destruct ct, st, tcp; cbn;
      try destruct (rc <? MAX_CONNECT_RETRY_CNT hdr); cbn;
      eexists _, _; (split; [reflexivity|]);
      apply session_inv_spec; cbn; auto.
Qed.

(** Every sequence of events is handled to the end, from any session that
    satisfies the invariant, and leads to one that does. *)
Lemma run_inv (evs : list Event) :
  forall q,
    header_ok hdr = true ->
    session_inv q = true ->
    exists es q',
      run evs q = (es, Done tt q') /\ session_inv q' = true.
Proof.
  induction evs as [|e evs IH]; intros q Hh Hi.
  - exists [], q. split; [reflexivity|assumption].
  - destruct (deliver_inv e q Hh Hi) as (es & q1 & Hrun & Hi1).
    destruct (IH q1 Hh Hi1) as (es' & q' & Hrun' & Hi').
    cbn [run]. rewrite (bind_done _ _ _ _ _ _ Hrun), Hrun'. cbn. eauto.
Qed.

(** The constructor establishes the invariant. *)
Lemma QsoFrn_new_inv (g : gsm) (cfg : string -> option string) :
  header_ok hdr = true ->
  session_inv (QsoFrn_new g cfg) = true.
Proof.
  intros Hh. pose proof (header_ok_sizes Hh) as (_ & _ & _ & HB).
  apply session_inv_spec. unfold QsoFrn_new, QsoFrn_ctor.
  destruct (read_in_turn cfg config_variables) as [vs [tag|]];
    cbn; rewrite length_replicate; repeat split; try lia; discriminate.
Qed.

(** ** Further properties of the session *)

(** *** The constructor *)

Lemma read_in_turn_missing (cfg : string -> option string)
    (tags : list string) :
  forallb (present cfg) tags
  = match snd (read_in_turn cfg tags) with None => true | Some _ => false end.
Proof.
  induction tags as [|tag tags IH]; [reflexivity|].
  cbn [forallb read_in_turn]. unfold present at 1.
  destruct (cfg tag); [|reflexivity].
  rewrite IH. now destruct (read_in_turn cfg tags).
Qed.

Lemma read_in_turn_all (cfg : string -> option string)
    (tags : list string) :
  snd (read_in_turn cfg tags) = None ->
  fst (read_in_turn cfg tags) = map (configured cfg) tags.
Proof.
  induction tags as [|tag tags IH]; [reflexivity|].
  cbn [read_in_turn map]. unfold configured at 1.
  destruct (cfg tag); [|discriminate].
  destruct (read_in_turn cfg tags) as [vs missing]. cbn [fst snd] in *.
  intros Hm. now rewrite IH.
Qed.

(** The session a successful construction leaves. *)
Lemma QsoFrn_new_ok (g : gsm) (cfg : string -> option string) :
  init_ok (QsoFrn_new g cfg) = true ->
  QsoFrn_new g cfg
  = mkQsoFrn true false false false false false STATE_DISCONNECTED 0 0 g
      (replicate (Z.to_nat (BUFFER_SIZE hdr)) 0)
      (replicate (Z.to_nat (BUFFER_SIZE hdr)) 0)
      (options_read (map (configured cfg) config_variables)).
Proof.
  unfold QsoFrn_new, QsoFrn_ctor.
  pose proof (read_in_turn_all cfg config_variables) as Hall.
  destruct (read_in_turn cfg config_variables) as [vs [tag|]];
    cbn [fst snd] in *; [discriminate|].
  intros _. now rewrite (Hall eq_refl).
Qed.

(** X1: the constructor sets init_ok exactly when every one of the twelve
    configuration variables is present; with or without them the session
    starts Disconnected, with the failure counter and the fill count at
    zero, not authorised and with the transport closed. *)
Theorem constructor_needs_every_variable (g : gsm)
    (cfg : string -> option string) :
  init_ok (QsoFrn_new g cfg) = forallb (present cfg) required_tags
  /\ state (QsoFrn_new g cfg) = STATE_DISCONNECTED
  /\ connect_retry_cnt (QsoFrn_new g cfg) = 0
  /\ send_buffer_cnt (QsoFrn_new g cfg) = 0
  /\ is_sending_voice (QsoFrn_new g cfg) = false
  /\ tcp_client (QsoFrn_new g cfg) = false.
Proof.
  change required_tags with config_variables.
  rewrite read_in_turn_missing. unfold QsoFrn_new, QsoFrn_ctor.
  destruct (read_in_turn cfg config_variables) as [vs [tag|]];
    repeat split.
Qed.

(** X2: a session whose construction succeeded holds the configured values:
    connect asks the transport for the configured server and for the port
    number that atoi reads from the configured port (the decimal number the
    string starts with, 0 if it starts with none), and the login request
    sent on a successful connect carries, tag by tag, the values of
    VERSION, EMAIL_ADDRESS, DYN_PASSWORD, CALLSIGN_AND_USER, CLIENT_TYPE,
    BAND_AND_CHANNEL, DESCRIPTION, COUNTRY, CITY_CITY_PART and NET. *)
Theorem configured_values_are_sent (g : gsm)
    (cfg : string -> option string) :
  init_ok (QsoFrn_new g cfg) = true ->
  connection_calls (trace_of (connect (QsoFrn_new g cfg)))
  = [TcpConnect (configured cfg "SERVER") (atoi (configured cfg "PORT"))]
  /\ tcp_writes (trace_of (deliver TcpConnected (QsoFrn_new g cfg)))
     = [token (composite_login (opts (QsoFrn_new g cfg))) ++ endl]
  /\ identity_fields (opts (QsoFrn_new g cfg))
     = [("VX", configured cfg "VERSION");
        ("EA", configured cfg "EMAIL_ADDRESS");
        ("PW", configured cfg "DYN_PASSWORD");
        ("ON", configured cfg "CALLSIGN_AND_USER");
        ("CL", configured cfg "CLIENT_TYPE");
        ("BC", configured cfg "BAND_AND_CHANNEL");
        ("DS", configured cfg "DESCRIPTION");
        ("NN", configured cfg "COUNTRY");
        ("CT", configured cfg "CITY_CITY_PART");
        ("NT", configured cfg "NET")]%string.
Proof.
  intros Hok. rewrite <- login_request_segments.
  rewrite (QsoFrn_new_ok g cfg Hok). repeat split.
Qed.

(** *** stateToString *)

(** X3: two states have the same name exactly when they are the same
    state, so the logged name identifies the state. *)
Theorem stateToString_distinct (a b : State) :
  String.eqb (stateToString a) (stateToString b) = State_eqb a b.
Proof. destruct a, b; reflexivity. Qed.

(** *** Disconnects that are not retried *)

(** X4: a disconnect for a reason other than a remote disconnect or a
    system error is never followed by a connect attempt and leaves the
    failure counter as it was, both timers disabled and the transport
    closed; the state is Disconnected for an ordered disconnect and Error
    for every other reason (host not found, receive buffer overflow, any
    reason not listed). *)
Theorem disconnect_without_retry (q : QsoFrn) (r : DisconnectReason) :
  transient r = false ->
  exists es q',
    deliver (TcpDisconnected r) q = (es, Done tt q')
    /\ state q'
       = match r with
         | DR_ORDERED_DISCONNECT => STATE_DISCONNECTED
         | _ => STATE_ERROR
         end
    /\ connection_calls es = []
    /\ connect_retry_cnt q' = connect_retry_cnt q
    /\ keep_alive_timer q' = false
    /\ con_timeout_timer q' = false
    /\ tcp_client q' = false.
Proof.
  intros Hr.
  destruct q as [io sv rv tcp ka ct st rc sc g sb rb o].
  unfold deliver, onDisconnected, setState, bind, gets, modify, emit, ret.
  destruct r; try discriminate Hr; destruct st; cbn;
    eexists _, _; repeat (split; [reflexivity|]); reflexivity.
Qed.

(** *** The timers *)

(** X5: when the inactivity timer expires, the transport is closed if it
    was open, and then the reconnect policy runs: below the retry ceiling
    the failure counter is incremented and one connect attempt made (state
    Connecting), otherwise the state is Error and no attempt is made.  Both
    timers are disabled afterwards.  A disabled timer does nothing. *)
Theorem inactivity_timeout_reconnects (q : QsoFrn) :
  exists es q',
    deliver ConTimeoutExpired q = (es, Done tt q')
    /\ (con_timeout_timer q = false -> es = [] /\ q' = q)
    /\ (con_timeout_timer q = true ->
        connection_calls es
        = (if tcp_client q then [TcpDisconnect] else [])
            ++ (if connect_retry_cnt q <? MAX_CONNECT_RETRY_CNT hdr
                then [TcpConnect (opt_server (opts q))
                        (atoi (opt_port (opts q)))]
                else [])
        /\ state q'
           = (if connect_retry_cnt q <? MAX_CONNECT_RETRY_CNT hdr
              then STATE_CONNECTING else STATE_ERROR)
        /\ connect_retry_cnt q' = connect_retry_cnt q + 1
        /\ keep_alive_timer q' = false
        /\ con_timeout_timer q' = false
        /\ tcp_client q' = false).
Proof.
  destruct q as [io sv rv tcp ka ct st rc sc g sb rb o].
  unfold deliver, onConnectTimeout, disconnect, reconnect, connect, setState,
    bind, gets, modify, emit, ret.
  destruct ct, st, tcp; cbn;
    destruct (rc <? MAX_CONNECT_RETRY_CNT hdr); cbn;
    eexists _, _; (split; [reflexivity|]);
    (split; [intros H; try discriminate H; split; reflexivity|]);
    intros H; try discriminate H;
    repeat (split; [reflexivity|]); reflexivity.
Qed.

(** X6: when the keep-alive timer expires, the ping token "P" and a line
    break are written if the timer is enabled and the transport open, and
    nothing is written otherwise; no member changes. *)
Theorem keepalive_ping (q : QsoFrn) :
  deliver KeepAliveExpired q
  = ((if keep_alive_timer q && tcp_client q
      then [TcpWrite (token "P" ++ endl)] else []),
     Done tt q).
Proof.
  unfold deliver, onKeepaliveTimeout, sendRequest. rewrite bind_gets.
  destruct (keep_alive_timer q); cbn [andb]; [|reflexivity].
  rewrite bind_gets. destruct (tcp_client q) eqn:Ht; [|reflexivity].
  rewrite bind_gets, Ht. reflexivity.
Qed.

(** *** flushSamples at the edges *)

(** X7: with nothing in the buffer, or outside LoggedIn, flushSamples only
    signals the completion of the flush: nothing is written to the
    transport and no member changes. *)
Theorem flushSamples_nothing_to_send (q : QsoFrn) :
  state q <> STATE_LOGGED_IN \/ send_buffer_cnt q <= 0 ->
  flushSamples q = ([SourceAllSamplesFlushed], Done tt q).
Proof.
  intros H. unfold flushSamples. rewrite !bind_gets.
  assert (Hc : State_eqb (state q) STATE_LOGGED_IN
               && (0 <? send_buffer_cnt q) = false).
  { destruct H as [H|H].
    - destruct (State_eqb_spec (state q) STATE_LOGGED_IN);
        [contradiction|reflexivity].
    - destruct (Z.ltb_spec 0 (send_buffer_cnt q)); [lia|].
      apply andb_false_r. }
  rewrite Hc. reflexivity.
Qed.

Lemma zero_tail_full (n : Z) (buf : list Z) :
  length buf = Z.to_nat n -> zero_tail n buf = buf.
Proof.
  intros H. unfold zero_tail. rewrite take_ge by lia.
  replace (length buf - Z.to_nat n)%nat with 0%nat by lia.
  apply app_nil_r.
Qed.

(** X8: a buffer left full for want of the authorisation is sent by
    flushSamples as it is, with no padding: TX1, the encoding of the whole
    buffer, TX0, and the flush signal; the buffer is empty afterwards and
    the transmitting flag cleared. *)
Theorem flushSamples_full_buffer (q : QsoFrn) :
  header_ok hdr = true ->
  session_inv q = true ->
  state q = STATE_LOGGED_IN ->
  send_buffer_cnt q = BUFFER_SIZE hdr ->
  exists q',
    flushSamples q
    = ([TcpWrite TX1; TcpWrite (voice_payload (gsmh q) (send_buffer q));
        TcpWrite TX0; SourceAllSamplesFlushed], Done tt q')
    /\ send_buffer_cnt q' = 0
    /\ is_sending_voice q' = false
    /\ send_buffer q' = send_buffer q.
Proof.
  intros Hh Hi Hst Hc.
  pose proof (header_ok_sizes Hh) as (_ & _ & _ & HB).
  pose proof (session_inv_logged_in q Hi Hst) as Htcp.
  apply session_inv_spec in Hi as (_ & Hbuf & _).
  unfold flushSamples. rewrite !bind_gets, Hst.
  destruct (Z.ltb_spec 0 (send_buffer_cnt q)); [|lia].
  cbn [State_eqb andb].
  repeat (rewrite bind_assoc || rewrite bind_modify). cbv beta.
  set (q1 := set_send_buffer_cnt (BUFFER_SIZE hdr) _).
  rewrite (bind_done _ _ _ _ _ _ (sendVoiceData_spec q1 eq_refl)).
  unfold sendRequest, bind, gets, modify, emit, ret. cbn.
  rewrite Htcp. cbn. rewrite zero_tail_full by (rewrite Hc; exact Hbuf).
  eexists. repeat split.
  unfold q1. cbn. apply zero_tail_full. rewrite Hc. exact Hbuf.
Qed.

(** *** Responses other than voice *)

Lemma onDataReceived_logged_in (q : QsoFrn) (data : list ascii) (len : Z)
    es q' :
  state q = STATE_LOGGED_IN ->
  handleResponse (first_byte data) data len q = (es, Done tt q') ->
  onDataReceived data len q = (TimerReset :: es, Done len q').
Proof.
  intros Hst H. unfold onDataReceived.
  unfold bind at 1. unfold emit at 1. rewrite bind_gets, Hst.
  rewrite (bind_done _ _ _ _ _ _ H). cbn. now rewrite app_nil_r.
Qed.

(** X9: while LoggedIn, a message whose first byte is neither the
    authorisation code nor the voice code never changes the session: the
    inactivity timer is reset, the idle code and the eight list codes do
    nothing more, and any other code puts one line on cerr.  The whole
    length is reported as consumed. *)
Theorem other_responses_change_nothing (q : QsoFrn) (data : list ascii)
    (len : Z) :
  state q = STATE_LOGGED_IN ->
  first_byte data <> DT_DO_TX hdr ->
  first_byte data <> DT_VOICE_BUFFER hdr ->
  onDataReceived data len q
  = (TimerReset
       :: (if existsb (Z.eqb (first_byte data)) (response_codes hdr)
           then [] else [Cerr "unknown command"]),
     Done len q).
Proof.
  intros Hst Htx Hv. apply onDataReceived_logged_in; [exact Hst|].
  unfold handleResponse, response_codes, list_codes. cbn [existsb].
  destruct (Z.eqb_spec (first_byte data) (DT_DO_TX hdr)); [contradiction|].
  destruct (Z.eqb_spec (first_byte data) (DT_VOICE_BUFFER hdr));
    [contradiction|].
  cbn [orb].
  destruct (first_byte data =? DT_IDLE hdr); [reflexivity|]. cbn [orb].
  match goal with |- context [if ?c then ret tt else _] => destruct c end;
    reflexivity.
Qed.

(** X10: while LoggedIn, a message whose first byte is the authorisation
    code sets the transmitting flag and tells the audio source to resume,
    after the reset of the inactivity timer; nothing is written to the
    transport and no other member changes. *)
Theorem authorisation_granted (q : QsoFrn) (data : list ascii) (len : Z) :
  header_ok hdr = true ->
  state q = STATE_LOGGED_IN ->
  first_byte data = DT_DO_TX hdr ->
  onDataReceived data len q
  = ([TimerReset; SourceResumeOutput],
     Done len (set_is_sending_voice true q)).
Proof.
  intros Hh Hst Hcmd.
  assert (Hne : (DT_DO_TX hdr =? DT_IDLE hdr) = false).
  { revert Hh. unfold header_ok, response_codes. cbn [distinctb forallb].
    rewrite !andb_true_iff, !negb_true_iff.
    rewrite (Z.eqb_sym (DT_DO_TX hdr) (DT_IDLE hdr)). intuition. }
  apply onDataReceived_logged_in; [exact Hst|].
  unfold handleResponse. rewrite Hcmd, Hne, Z.eqb_refl. reflexivity.
Qed.

(** *** What the audio calls and the inbound data leave alone *)

Lemma only_writes_no_connection (es : list Effect) :
  only_writes es -> connection_calls es = [] /\ connect_attempts es = 0%nat.
Proof.
  unfold only_writes, connection_calls, connect_attempts.
  induction 1 as [|e es He _ IH]; [split; reflexivity|].
  destruct e; try discriminate He. cbn. exact IH.
Qed.

Lemma sink_writes_no_connection (es : list Effect) :
  Forall (fun e => is_SinkWrite e = true) es ->
  connection_calls es = [] /\ connect_attempts es = 0%nat.
Proof.
  unfold connection_calls, connect_attempts.
  induction 1 as [|e es He _ IH]; [split; reflexivity|].
  destruct e; try discriminate He. cbn. exact IH.
Qed.

Lemma writeSamples_frame (q : QsoFrn) (samples : list Q) (count : Z) :
  header_ok hdr = true ->
  session_inv q = true ->
  exists es v q',
    writeSamples samples count q = (es, Done v q')
    /\ same_control q q'
    /\ is_sending_voice q' = is_sending_voice q
    /\ only_writes es.
Proof.
  intros Hh Hi.
  pose proof (header_ok_sizes Hh) as (_ & _ & _ & HB).
  unfold writeSamples. rewrite bind_gets.
  destruct (State_eqb (state q) STATE_LOGGED_IN); cbn [negb].
  - apply session_inv_spec in Hi as (Hc & Hbuf & _).
    destruct (writeSamples_loop_total (S (S (Z.to_nat count))) samples count
                0 q HB ltac:(lia) Hc)
      as (es & v & b & c & g & Hrun & _ & _ & _ & Hw).
    { destruct (_ =? _)%Z; lia. }
    rewrite Hrun. eexists _, _, _. split; [reflexivity|].
    repeat split. exact Hw.
  - exists [], count, q. repeat split. constructor.
Qed.

Lemma flushSamples_frame (q : QsoFrn) :
  exists es q',
    flushSamples q = (es, Done tt q')
    /\ same_control q q'
    /\ connection_calls es = [] /\ connect_attempts es = 0%nat
    /\ is_sending_voice q' = sending_after CallFlushSamples q.
Proof.
  unfold flushSamples, sending_after. rewrite !bind_gets.
  destruct (State_eqb (state q) STATE_LOGGED_IN && (0 <? send_buffer_cnt q)).
  - repeat (rewrite bind_assoc || rewrite bind_modify). cbv beta.
    set (q1 := set_send_buffer_cnt (BUFFER_SIZE hdr) _).
    rewrite (bind_done _ _ _ _ _ _ (sendVoiceData_spec q1 eq_refl)).
    unfold sendRequest, bind, gets, modify, emit, ret. cbn.
    destruct (tcp_client q); cbn; eexists _, _; (split; [reflexivity|]);
      rewrite andb_false_r; repeat split.
  - exists [SourceAllSamplesFlushed], q. rewrite andb_true_r.
    repeat split.
Qed.

Lemma same_control_trans (q1 q2 q3 : QsoFrn) :
  same_control q1 q2 -> same_control q2 q3 -> same_control q1 q3.
Proof.
  intros (A1 & A2 & A3 & A4 & A5 & A6 & A7)
         (B1 & B2 & B3 & B4 & B5 & B6 & B7).
  repeat split; congruence.
Qed.

Lemma decode_frames_keeps_size (n : nat) :
  forall frameno gsm_data pcm_buffer q,
    exists es q',
      decode_frames n frameno gsm_data pcm_buffer q = (es, Done tt q')
      /\ same_control q q'
      /\ Forall (fun e => is_SinkWrite e = true) es
      /\ send_buffer_cnt q' = send_buffer_cnt q
      /\ send_buffer q' = send_buffer q
      /\ is_sending_voice q' = is_sending_voice q.
Proof.
  induction n as [|n IH]; intros frameno gsm_data pcm_buffer q.
  - exists [], q. repeat split. constructor.
  - cbn [decode_frames]. rewrite bind_gets.
    destruct (gsm_decode (gsmh q) _) as [g1 pcm1].
    destruct (gsm_decode g1 _) as [g2 pcm2].
    rewrite bind_modify, bind_gets. cbv beta.
    set (q1 := set_gsmh g2 _).
    destruct (IH (frameno + 1) gsm_data (pcm_buffer + PCM_FRAME_SIZE hdr) q1)
      as (es & q' & Hrun & Hsame & Hsink & Hc & Hb & Hs).
    unfold bind at 1. unfold emit at 1. rewrite Hrun.
    eexists _, q'. split; [reflexivity|].
    split; [|split; [constructor; [reflexivity|exact Hsink]|]].
    + apply (same_control_trans q q1 q'); [|exact Hsame].
      unfold q1. repeat split. cbn. now rewrite !length_inserts.
    + rewrite Hc, Hb, Hs. repeat split.
Qed.

Lemma header_ok_do_tx :
  header_ok hdr = true -> (DT_DO_TX hdr =? DT_IDLE hdr) = false.
Proof.
  unfold header_ok, response_codes. cbn [distinctb forallb].
  rewrite !andb_true_iff, !negb_true_iff.
  rewrite (Z.eqb_sym (DT_DO_TX hdr) (DT_IDLE hdr)). intuition.
Qed.

Lemma handleResponse_frame (q : QsoFrn) (data : list ascii) (len : Z) :
  header_ok hdr = true ->
  exists es q',
    handleResponse (first_byte data) data len q = (es, Done tt q')
    /\ same_control q q'
    /\ connection_calls es = [] /\ connect_attempts es = 0%nat
    /\ tcp_writes es = []
    /\ send_buffer_cnt q' = send_buffer_cnt q
    /\ send_buffer q' = send_buffer q
    /\ is_sending_voice q'
       = (is_sending_voice q || (first_byte data =? DT_DO_TX hdr)).
Proof.
  intros Hh. unfold handleResponse.
  destruct (Z.eqb_spec (first_byte data) (DT_IDLE hdr)) as [Hidle|_].
  { exists [], q. rewrite Hidle, (Z.eqb_sym (DT_IDLE hdr)), header_ok_do_tx,
      orb_false_r by assumption. repeat split. }
  destruct (first_byte data =? DT_DO_TX hdr).
  { eexists _, _. split; [reflexivity|]. rewrite orb_true_r. repeat split. }
  rewrite orb_false_r.
  destruct (_ =? DT_VOICE_BUFFER hdr).
  { rewrite bind_modify. unfold handleAudioData. destruct (negb _).
    - eexists _, _. split; [reflexivity|]. repeat split.
    - destruct (decode_frames_keeps_size (Z.to_nat (FRAME_COUNT hdr)) 0
                  (drop 3 data) 0 (set_is_receiving_voice true q))
        as (es & q' & Hrun & Hsame & Hsink & Hcnt & Hbuf & Hs).
      rewrite Hrun. exists es, q'. split; [reflexivity|].
      destruct (sink_writes_no_connection es Hsink) as [Hc Ha].
      split; [exact Hsame|]. split; [exact Hc|]. split; [exact Ha|].
      split; [|repeat split; assumption].
      clear -Hsink. induction Hsink as [|e es He _ IH]; [reflexivity|].
      destruct e; try discriminate He. exact IH. }
  destruct (existsb _ _); eexists _, q; (split; [reflexivity|]);
    repeat split.
Qed.

Lemma onDataReceived_frame (q : QsoFrn) (data : list ascii) (len : Z) :
  header_ok hdr = true ->
  session_inv q = true ->
  exists es q',
    onDataReceived data len q = (TimerReset :: es, Done len q')
    /\ connection_calls es = [] /\ connect_attempts es = 0%nat
    /\ tcp_client q' = tcp_client q
    /\ con_timeout_timer q' = con_timeout_timer q
    /\ connect_retry_cnt q' = connect_retry_cnt q
    /\ send_buffer_cnt q' = send_buffer_cnt q
    /\ send_buffer q' = send_buffer q
    /\ state q'
       = match state q with
         | STATE_LOGGING_IN => STATE_LOGGING_IN_2
         | STATE_LOGGING_IN_2 => STATE_LOGGED_IN
         | st => st
         end
    /\ keep_alive_timer q'
       = match state q with
         | STATE_LOGGING_IN_2 => true
         | _ => keep_alive_timer q
         end
    /\ is_sending_voice q' = sending_after (TcpDataReceived data) q
    /\ length (receive_buffer q') = length (receive_buffer q).
Proof.
  intros Hh Hi. apply session_inv_spec in Hi as (_ & _ & Ho).
  unfold onDataReceived, sending_after.
  unfold bind at 1. unfold emit at 1. rewrite bind_gets.
  destruct (state q) eqn:Hst; cbn [State_eqb andb];
    rewrite ?orb_false_r.
  1-3, 7: eexists _, q; split; [reflexivity|]; repeat split;
    try (symmetry; apply orb_false_r); exact Hst.
  - unfold setState, bind, gets, modify, emit, ret. rewrite Hst. cbn.
    eexists _, _. split; [reflexivity|].
    repeat split; try (symmetry; apply orb_false_r).
  - unfold setState, sendRequest, bind, gets, modify, emit, ret.
    rewrite Hst. cbn. rewrite (Ho eq_refl). cbn.
    eexists _, _. split; [reflexivity|].
    repeat split; try (symmetry; apply orb_false_r); exact (Ho eq_refl).
  - destruct (handleResponse_frame q data len Hh)
      as (es & q' & Hrun & Hsame & Hc & Ha & _ & Hcnt & Hbuf & Hs).
    destruct Hsame as (Hs1 & Hs2 & Hs3 & Hs4 & Hs5 & _ & Hs7).
    rewrite (bind_done _ _ _ _ _ _ Hrun). cbn. rewrite app_nil_r.
    eexists _, _. split; [reflexivity|].
    rewrite Hs1, Hst. repeat split; assumption.
Qed.

(** *** What each event does to the control members *)

Lemma quiet_inv_same_control (q q' : QsoFrn) :
  same_control q q' -> quiet_inv q' = quiet_inv q.
Proof.
  intros (H1 & H2 & H3 & H4 & _). unfold quiet_inv.
  now rewrite H1, H2, H3, H4.
Qed.

Local Ltac summary_done :=
  repeat match goal with |- _ /\ _ => split end;
  first [reflexivity | intros; reflexivity | intros H; discriminate H
        | intros H; exact H].

Lemma deliver_summary (e : Event) (q : QsoFrn) :
  header_ok hdr = true ->
  session_inv q = true ->
  exists es q',
    deliver e q = (es, Done tt q')
    /\ connect_retry_cnt q' = retry_cnt_after e q
    /\ connect_attempts es = attempts_of e q
    /\ is_sending_voice q' = sending_after e q
    /\ (quiet_inv q = true -> quiet_inv q' = true)
    /\ length (receive_buffer q') = length (receive_buffer q).
Proof.
  intros Hh Hi. destruct e as [| |samples| |is_open| |reason|data| |].
  3: { cbn [deliver retry_cnt_after attempts_of sending_after].
       destruct (writeSamples_frame q samples (Z.of_nat (length samples))
                   Hh Hi) as (es & v & q' & Hrun & Hsame & Hs & Hw).
       rewrite (bind_done _ _ _ _ _ _ Hrun). cbn. rewrite app_nil_r.
       exists es, q'. split; [reflexivity|].
       rewrite (quiet_inv_same_control _ _ Hsame).
       destruct Hsame as (_ & _ & _ & _ & Hc & _ & Hr).
       destruct (only_writes_no_connection es Hw) as [_ Ha].
       repeat split; auto. }
  3: { cbn [deliver retry_cnt_after attempts_of].
       destruct (flushSamples_frame q)
         as (es & q' & Hrun & Hsame & _ & Ha & Hs).
       exists es, q'. rewrite (quiet_inv_same_control _ _ Hsame).
       destruct Hsame as (_ & _ & _ & _ & Hc & _ & Hr).
       repeat split; auto. }
  6: { cbn [deliver retry_cnt_after attempts_of].
       destruct (onDataReceived_frame q data (Z.of_nat (length data)) Hh Hi)
         as (es & q' & Hrun & _ & Ha & Ht & Hct & Hc & _ & _ & Hst & Hka
             & Hs & Hr).
       rewrite (bind_done _ _ _ _ _ _ Hrun). cbn. rewrite app_nil_r.
       eexists _, q'. split; [reflexivity|].
       split; [exact Hc|]. split; [exact Ha|]. split; [exact Hs|].
       split; [|exact Hr].
       unfold quiet_inv. rewrite Hst, Hka, Ht, Hct.
       destruct (state q); cbn; auto; discriminate. }
  all: destruct q as [io sv rv tcp ka ct st rc sc g sb rb o];
    unfold deliver, connect, disconnect, squelchOpen, onConnected,
      onDisconnected, onKeepaliveTimeout, onConnectTimeout, reconnect,
      connect, login, sendRequest, setState, bind, gets, modify, emit, ret,
      retry_cnt_after, attempts_of, sending_after, quiet_inv.
  - destruct st; cbn; eexists _, _; summary_done.
  - destruct st, tcp; cbn; eexists _, _; summary_done.
  - destruct is_open, tcp; cbn; eexists _, _; summary_done.
  - destruct st; cbn; eexists _, _; summary_done.
  - destruct reason, st; cbn;
      try destruct (rc <? MAX_CONNECT_RETRY_CNT hdr); cbn;
      eexists _, _; summary_done.
  - destruct ka, tcp; cbn; eexists _, _; summary_done.
  - destruct ct, st, tcp; cbn;
      try destruct (rc <? MAX_CONNECT_RETRY_CNT hdr); cbn;
      eexists _, _; summary_done.
Qed.

Lemma run_summary (evs : list Event) :
  forall q,
    header_ok hdr = true ->
    session_inv q = true ->
    quiet_inv q = true ->
    exists es q',
      run evs q = (es, Done tt q')
      /\ session_inv q' = true /\ quiet_inv q' = true
      /\ length (receive_buffer q') = length (receive_buffer q).
Proof.
  induction evs as [|e evs IH]; intros q Hh Hi Hq.
  - exists [], q. repeat split; assumption.
  - destruct (deliver_inv e q Hh Hi) as (es & q1 & Hrun & Hi1).
    destruct (deliver_summary e q Hh Hi)
      as (es0 & q0 & Hrun0 & _ & _ & _ & Hq0 & Hr0).
    rewrite Hrun in Hrun0. injection Hrun0 as <- <-.
    destruct (IH q1 Hh Hi1 (Hq0 Hq))
      as (es' & q' & Hrun' & Hi' & Hq' & Hr').
    cbn [run]. rewrite (bind_done _ _ _ _ _ _ Hrun), Hrun'. cbn.
    eexists _, q'. split; [reflexivity|]. repeat split; try assumption.
    congruence.
Qed.

Lemma QsoFrn_new_quiet (g : gsm) (cfg : string -> option string) :
  init_ok (QsoFrn_new g cfg) = true ->
  quiet_inv (QsoFrn_new g cfg) = true.
Proof. intros Hok. now rewrite (QsoFrn_new_ok g cfg Hok). Qed.

(** *** Sessions reached from the constructor *)

(** X11: whatever events follow a successful construction (calls,
    transport callbacks, timer expiries, in any order), every one of them
    is handled to its end: the assertion of
    sendVoiceData holds and the loop of writeSamples terminates.  In the
    session reached the fill count is between 0 and BUFFER_SIZE, the send
    and receive arrays have BUFFER_SIZE elements each, and in the states
    Connected, LoggingIn, LoggingIn2 and LoggedIn the transport is open. *)
Theorem every_run_completes (g : gsm) (cfg : string -> option string)
    (evs : list Event) :
  header_ok hdr = true ->
  init_ok (QsoFrn_new g cfg) = true ->
  exists es q',
    run evs (QsoFrn_new g cfg) = (es, Done tt q')
    /\ 0 <= send_buffer_cnt q' <= BUFFER_SIZE hdr
    /\ length (send_buffer q') = Z.to_nat (BUFFER_SIZE hdr)
    /\ length (receive_buffer q') = Z.to_nat (BUFFER_SIZE hdr)
    /\ (online (state q') = true -> tcp_client q' = true).
Proof.
  intros Hh Hok.
  destruct (run_summary evs (QsoFrn_new g cfg) Hh (QsoFrn_new_inv g cfg Hh)
              (QsoFrn_new_quiet g cfg Hok))
    as (es & q' & Hrun & Hi & _ & Hr).
  exists es, q'. split; [exact Hrun|].
  apply session_inv_spec in Hi as (Hc & Hb & Ho).
  repeat split; try assumption; try lia.
  rewrite Hr, (QsoFrn_new_ok g cfg Hok). apply length_replicate.
Qed.

(** X12: in every session reached from a successful construction, if the
    state is Disconnected or Error then both timers are disabled and the
    transport is closed; an expiry of either timer then does nothing. *)
Theorem offline_sessions_are_quiet (g : gsm)
    (cfg : string -> option string) (evs : list Event) :
  header_ok hdr = true ->
  init_ok (QsoFrn_new g cfg) = true ->
  exists es q',
    run evs (QsoFrn_new g cfg) = (es, Done tt q')
    /\ (offline (state q') = true ->
        keep_alive_timer q' = false
        /\ con_timeout_timer q' = false
        /\ tcp_client q' = false
        /\ deliver KeepAliveExpired q' = ([], Done tt q')
        /\ deliver ConTimeoutExpired q' = ([], Done tt q')).
Proof.
  intros Hh Hok.
  destruct (run_summary evs (QsoFrn_new g cfg) Hh (QsoFrn_new_inv g cfg Hh)
              (QsoFrn_new_quiet g cfg Hok))
    as (es & q' & Hrun & _ & Hq & _).
  exists es, q'. split; [exact Hrun|]. intros Hoff.
  unfold quiet_inv in Hq. rewrite Hoff in Hq. cbn in Hq.
  apply andb_true_iff in Hq as [Hq Ht]. apply andb_true_iff in Hq as [Hk Hc].
  apply negb_true_iff in Hk, Hc, Ht.
  repeat split; try assumption.
  - unfold deliver. rewrite bind_gets, Hk. reflexivity.
  - unfold deliver. rewrite bind_gets, Hc. reflexivity.
Qed.

(** X13: the failure counter is set to zero by a successful connect,
    incremented by a transient disconnect and by an expiry of the enabled
    inactivity timer, and left as it is by every other event.  A connect
    attempt is made by connect(), and by those two events while the counter
    is below MAX_CONNECT_RETRY_CNT; no other event makes one, and each
    event makes at most one. *)
Theorem failure_counter_and_attempts (e : Event) (q : QsoFrn) :
  header_ok hdr = true ->
  session_inv q = true ->
  exists es q',
    deliver e q = (es, Done tt q')
    /\ connect_retry_cnt q' = retry_cnt_after e q
    /\ connect_attempts es = attempts_of e q.
Proof.
  intros Hh Hi.
  destruct (deliver_summary e q Hh Hi) as (es & q' & Hrun & Hc & Ha & _).
  exists es, q'. auto.
Qed.

(** X14: the transmitting flag is set by an authorisation message received
    while LoggedIn, cleared by flushSamples when it sends a buffer, and
    left as it is by every other event: a disconnect, a timeout or a new
    login does not withdraw an authorisation once granted. *)
Theorem authorisation_flag_changes (e : Event) (q : QsoFrn) :
  header_ok hdr = true ->
  session_inv q = true ->
  exists es q',
    deliver e q = (es, Done tt q')
    /\ is_sending_voice q' = sending_after e q.
Proof.
  intros Hh Hi.
  destruct (deliver_summary e q Hh Hi)
    as (es & q' & Hrun & _ & _ & Hs & _).
  exists es, q'. auto.
Qed.

(** X15: while the transport is closed nothing is written to it: apart
    from the callback that reports the connection, no event makes a call
    of the transport's write. *)
Theorem no_write_on_closed_transport (e : Event) (q : QsoFrn) :
  header_ok hdr = true ->
  session_inv q = true ->
  tcp_client q = false ->
  e <> TcpConnected ->
  exists es q',
    deliver e q = (es, Done tt q') /\ tcp_writes es = [].
Proof.
  intros Hh Hi Ht He.
  apply session_inv_spec in Hi as (_ & _ & Ho).
  destruct q as [io sv rv tcp ka ct st rc sc g sb rb o].
  cbn in Ht, Ho. subst tcp.
  assert (Hoff : online st = false).
  { destruct (online st); [discriminate (Ho eq_refl)|reflexivity]. }
  clear Ho.
  unfold deliver, writeSamples, flushSamples, onDataReceived, connect,
    disconnect, squelchOpen, onDisconnected, onKeepaliveTimeout,
    onConnectTimeout, reconnect, connect, sendRequest, setState,
    bind, gets, modify, emit, ret.
  destruct e as [| |samples| |is_open| |reason|data| |];
    try contradiction;
    destruct st; try discriminate Hoff; cbn;
    try destruct is_open; try destruct reason; try destruct ka;
    try destruct ct; cbn;
    try destruct (rc <? MAX_CONNECT_RETRY_CNT hdr); cbn;
    eexists _, _; split; reflexivity.
Qed.

(** X16: inbound data, in any state and whatever its content: the
    inactivity timer is reset before anything else, the whole length is
    reported as consumed, the transport is neither opened nor closed, the
    failure counter, the uplink buffer and its fill count are left alone,
    and the state moves only from LoggingIn to LoggingIn2 and from
    LoggingIn2 to LoggedIn. *)
Theorem inbound_data_frame (q : QsoFrn) (data : list ascii) (len : Z) :
  header_ok hdr = true ->
  session_inv q = true ->
  exists es q',
    onDataReceived data len q = (TimerReset :: es, Done len q')
    /\ connection_calls es = []
    /\ connect_retry_cnt q' = connect_retry_cnt q
    /\ send_buffer_cnt q' = send_buffer_cnt q
    /\ send_buffer q' = send_buffer q
    /\ state q'
       = match state q with
         | STATE_LOGGING_IN => STATE_LOGGING_IN_2
         | STATE_LOGGING_IN_2 => STATE_LOGGED_IN
         | st => st
         end.
Proof.
  intros Hh Hi.
  destruct (onDataReceived_frame q data len Hh Hi)
    as (es & q' & Hrun & Hc & _ & _ & _ & Hr & Hcnt & Hbuf & Hst & _).
  exists es, q'. auto 10.
Qed.

(** *** A voice packet of the right length *)

Lemma block_written (l x y : list Z) (d : nat) :
  (d + length x + length y <= length l)%nat ->
  take (length x + length y)
    (drop d (list_inserts (d + length x) y (list_inserts d x l)))
  = x ++ y.
Proof.
  intros Hl. apply list_eq. intros i.
  destruct (Nat.lt_ge_cases i (length x + length y)) as [Hi|Hi].
  - rewrite lookup_take_lt, lookup_drop by lia.
    destruct (Nat.lt_ge_cases i (length x)) as [Hx|Hx].
    + rewrite list_lookup_inserts_lt by lia.
      rewrite list_lookup_inserts by lia.
      rewrite lookup_app_l by lia. f_equal. lia.
    + rewrite list_lookup_inserts by (rewrite ?length_inserts; lia).
      rewrite lookup_app_r by lia. f_equal. lia.
  - rewrite lookup_take_ge by lia. symmetry.
    apply lookup_ge_None_2. rewrite length_app. lia.
Qed.

Lemma decoded_blocks_shape (n : nat) :
  forall frameno gsm_data g,
    decoder_fits -> 0 <= PCM_FRAME_SIZE hdr ->
    length (decoded_blocks n frameno gsm_data g) = n
    /\ Forall (fun b => Z.of_nat (length b) = PCM_FRAME_SIZE hdr)
         (decoded_blocks n frameno gsm_data g).
Proof.
  induction n as [|n IH]; intros frameno gsm_data g Hfit Hpcm.
  - split; [reflexivity|constructor].
  - cbn [decoded_blocks].
    pose proof Hfit as [Heven Hlen].
    pose proof (Hlen g (drop (Z.to_nat (frameno * GSM_FRAME_SIZE hdr))
                          gsm_data)) as H1.
    destruct (gsm_decode g _) as [g1 pcm1].
    pose proof (Hlen g1 (drop (Z.to_nat (frameno * GSM_FRAME_SIZE hdr) + 33)
                           gsm_data)) as H2.
    destruct (gsm_decode g1 _) as [g2 pcm2]. cbn [snd] in H1, H2.
    destruct (IH (frameno + 1) gsm_data g2 Hfit Hpcm) as [IH1 IH2].
    split; [cbn; now rewrite IH1|].
    constructor; [|exact IH2]. rewrite length_app, H1, H2.
    set (h := PCM_FRAME_SIZE hdr ÷ 2) in *. lia.
Qed.

Lemma decode_frames_blocks (n : nat) :
  forall frameno gsm_data pcm_buffer q,
    decoder_fits ->
    0 <= pcm_buffer -> 0 <= PCM_FRAME_SIZE hdr ->
    (Z.to_nat pcm_buffer + n * Z.to_nat (PCM_FRAME_SIZE hdr)
     <= length (receive_buffer q))%nat ->
    exists g rb,
      decode_frames n frameno gsm_data pcm_buffer q
      = (map (fun b => SinkWriteSamples (map to_float b))
           (decoded_blocks n frameno gsm_data (gsmh q)),
         Done tt (set_gsmh g (set_receive_buffer rb q)))
      /\ length rb = length (receive_buffer q).
Proof.
  induction n as [|n IH]; intros frameno gsm_data p q Hfit Hp Hpcm Hroom.
  - exists (gsmh q), (receive_buffer q). split; [now destruct q|reflexivity].
  - cbn [decode_frames decoded_blocks]. rewrite bind_gets.
    pose proof Hfit as [Heven Hlen].
    pose proof (Hlen (gsmh q)
                  (drop (Z.to_nat (frameno * GSM_FRAME_SIZE hdr)) gsm_data))
      as H1.
    destruct (gsm_decode (gsmh q) _) as [g1 pcm1].
    pose proof (Hlen g1 (drop (Z.to_nat (frameno * GSM_FRAME_SIZE hdr) + 33)
                           gsm_data)) as H2.
    destruct (gsm_decode g1 _) as [g2 pcm2]. cbn [snd] in H1, H2.
    rewrite bind_modify, bind_gets. cbv beta.
    set (q1 := set_gsmh g2 _).
    assert (Hhalf : Z.to_nat (PCM_FRAME_SIZE hdr)
                    = (length pcm1 + length pcm2)%nat) by lia.
    assert (Hrb1 : length (receive_buffer q1) = length (receive_buffer q)).
    { unfold q1. cbn. now rewrite !length_inserts. }
    destruct (IH (frameno + 1) gsm_data (p + PCM_FRAME_SIZE hdr) q1 Hfit)
      as (g & rb & Hrun & Hrb); [lia|lia|rewrite Hrb1; lia|].
    unfold bind at 1. unfold emit at 1. rewrite Hrun.
    replace (set_gsmh g (set_receive_buffer rb q1))
      with (set_gsmh g (set_receive_buffer rb q))
      by (unfold q1; now destruct q).
    exists g, rb. split; [|now rewrite Hrb, Hrb1].
    cbn [app map]. do 2 f_equal. f_equal. f_equal.
    unfold q1. cbn. rewrite Hhalf, <- H1.
    apply block_written. cbn in Hroom. lia.
Qed.

(** X17: while LoggedIn, a voice message of exactly
    FRN_AUDIO_PACKET_SIZE + 3 bytes is decoded past its three header bytes,
    unit by unit, and every decoded block is handed to the sink at once and
    in order: after the reset of the inactivity timer the calls are exactly
    FRAME_COUNT sink writes of PCM_FRAME_SIZE samples each, the k-th being
    the output of the two decoder calls on the k-th unit (at its start and
    33 bytes further) divided by 32768.  Nothing is written to the
    transport; the state, the timers, the failure counter and the uplink
    buffer are left alone. *)
Theorem voice_packet_decoded (q : QsoFrn) (data : list ascii) (len : Z) :
  header_ok hdr = true ->
  decoder_fits ->
  length (receive_buffer q) = Z.to_nat (BUFFER_SIZE hdr) ->
  state q = STATE_LOGGED_IN ->
  first_byte data = DT_VOICE_BUFFER hdr ->
  len = FRN_AUDIO_PACKET_SIZE hdr + 3 ->
  let blocks :=
    decoded_blocks (Z.to_nat (FRAME_COUNT hdr)) 0 (drop 3 data) (gsmh q) in
  exists q',
    onDataReceived data len q
    = (TimerReset :: map (fun b => SinkWriteSamples (map to_float b)) blocks,
       Done len q')
    /\ Z.of_nat (length blocks) = FRAME_COUNT hdr
    /\ Forall (fun b => Z.of_nat (length b) = PCM_FRAME_SIZE hdr) blocks
    /\ same_control q q'
    /\ send_buffer_cnt q' = send_buffer_cnt q
    /\ send_buffer q' = send_buffer q
    /\ is_sending_voice q' = is_sending_voice q.
Proof.
  intros Hh Hfit Hrb Hst Hcmd Hlen. cbv zeta.
  pose proof (header_ok_sizes Hh) as (Hf & Hp & _ & HB).
  destruct (header_ok_voice_code Hh) as [Hidle Htx].
  destruct (decoded_blocks_shape (Z.to_nat (FRAME_COUNT hdr)) 0
              (drop 3 data) (gsmh q) Hfit ltac:(lia)) as [Hn Hshape].
  destruct (decode_frames_blocks (Z.to_nat (FRAME_COUNT hdr)) 0
              (drop 3 data) 0 (set_is_receiving_voice true q) Hfit)
    as (g & rb & Hrun & Hrb'); [lia|lia| |].
  { cbn. rewrite Hrb. unfold BUFFER_SIZE. nia. }
  eexists. split.
  { apply onDataReceived_logged_in; [exact Hst|].
    unfold handleResponse, handleAudioData.
    rewrite Hcmd, Hidle, Htx, Z.eqb_refl, Hlen, Z.eqb_refl. cbn [negb].
    rewrite bind_modify. exact Hrun. }
  split; [rewrite Hn; lia|]. split; [exact Hshape|].
  repeat split. cbn. now rewrite Hrb'.
Qed.

(** *** The two sample conversions, one after the other *)

(** X18: a sample converted to 16 bits by writeSamples and back to a
    float the way handleAudioData does comes out strictly between -1.0 and
    1.0, whatever it was; for a sample between -1.0 and 1.0 the result is
    less than 2/32768 away from the sample and not larger in magnitude. *)
Theorem sample_round_trip (x : Q) :
  (-1 < to_float (to_int16 x))%Q
  /\ (to_float (to_int16 x) < 1)%Q
  /\ ((-1 <= x)%Q -> (x <= 1)%Q ->
      (Qabs (x - to_float (to_int16 x)) < 2 / 32768)%Q
      /\ (Qabs (to_float (to_int16 x)) <= Qabs x)%Q).
Proof.
  assert (Hq : forall r : Z,
             to_float r = (r # 32768)%Q).
  { intros r. unfold to_float, Qdiv, Qinv, Qmult, inject_Z. cbn.
    now rewrite Z.mul_1_r. }
  assert (Hrange : -32768 < to_int16 x < 32768).
  { unfold to_int16.
    destruct (Qltb 1 x) eqn:E1; [lia|].
    destruct (Qltb x (-1)) eqn:E2; [lia|].
    apply Qltb_ge in E1. apply Qltb_ge in E2.
    destruct x as [n d]. unfold Qle in E1, E2. cbn in E1, E2.
    unfold Qtrunc, Qmult. cbn [Qnum Qden].
    change (1 * d)%positive with d.
    pose proof (quot_truncates (32767 * n) (Zpos d) ltac:(lia)) as [_ H2].
    nia. }
  rewrite !Hq. split; [|split].
  - unfold Qlt. cbn. lia.
  - unfold Qlt. cbn. lia.
  - intros Hlo Hhi.
    assert (Hx : to_int16 x = (32767 * Qnum x) ÷ Zpos (Qden x)).
    { unfold to_int16. apply Qltb_ge in Hhi. apply Qltb_ge in Hlo.
      rewrite Hhi, Hlo. destruct x as [n d]. reflexivity. }
    rewrite Hx. destruct x as [n d]. cbn [Qnum Qden].
    unfold Qle in Hlo, Hhi. cbn in Hlo, Hhi.
    pose proof (quot_truncates (32767 * n) (Zpos d) ltac:(lia)) as [H1 H2].
    set (r := (32767 * n) ÷ Zpos d) in *.
    split.
    + unfold Qlt, Qabs, Qminus, Qplus, Qopp, Qdiv, Qinv, Qmult.
      cbn [Qnum Qden].
      rewrite Pos2Z.inj_mul.
      assert (Hrd : r * Zpos d = r * Zpos d) by reflexivity.
      set (rd := r * Zpos d) in *.
      replace (n * 32768 + - r * Z.pos d) with (32768 * n - rd)
        by (unfold rd; lia).
      lia.
    + unfold Qle, Qabs. cbn [Qnum Qden].
      set (rd := r * Zpos d) in *.
      replace (Z.abs r * Z.pos d) with (Z.abs rd)
        by (unfold rd; rewrite Z.abs_mul; lia).
      lia.
Qed.

(** *** writeSamples while authorised *)

Lemma writeSamples_loop_authorised (fuel : nat) :
  forall samples count samples_read q,
    0 < BUFFER_SIZE hdr ->
    0 <= FRAME_COUNT hdr -> 0 <= GSM_FRAME_SIZE hdr ->
    is_sending_voice q = true ->
    tcp_client q = true ->
    0 <= samples_read <= count ->
    0 <= send_buffer_cnt q <= BUFFER_SIZE hdr ->
    send_buffer_cnt q < BUFFER_SIZE hdr \/ samples_read < count ->
    (Z.to_nat (count - samples_read)
       + (if (send_buffer_cnt q =? BUFFER_SIZE hdr)%Z then 2 else 1)
     <= fuel)%nat ->
    exists ps q',
      writeSamples_loop fuel samples count samples_read q
      = (voice_writes ps, Done count q')
      /\ Z.of_nat (length ps)
         = (send_buffer_cnt q + count - samples_read) / BUFFER_SIZE hdr
      /\ Forall (fun p => Z.of_nat (length p)
                          = FRAME_COUNT hdr * GSM_FRAME_SIZE hdr) ps
      /\ send_buffer_cnt q'
         = (send_buffer_cnt q + count - samples_read) mod BUFFER_SIZE hdr
      /\ same_control q q'
      /\ is_sending_voice q' = true.
Proof.
  induction fuel as [|fuel IH];
    intros samples count sr q HB HF HG Hs Ht Hsr Hc Hgo Hfuel.
  - destruct (_ =? _); lia.
  - destruct (Z.lt_ge_cases sr count) as [Hlt|Hge].
    + rewrite writeSamples_loop_step by lia. cbv zeta.
      set (n := Z.to_nat (Z.min (BUFFER_SIZE hdr - send_buffer_cnt q)
                            (count - sr))).
      set (q1 := store_samples (converted samples sr n) q).
      assert (Hc1 : send_buffer_cnt q1 = send_buffer_cnt q + Z.of_nat n).
      { unfold q1. change (send_buffer_cnt (store_samples ?xs q))
          with (send_buffer_cnt q + Z.of_nat (length xs)).
        now rewrite length_converted. }
      assert (Hq1 : same_control q q1) by (unfold q1; repeat split).
      assert (Hfuel' : (Z.to_nat (count - (sr + Z.of_nat n)) + 1
                        <= fuel)%nat).
      { destruct (Z.eqb_spec (send_buffer_cnt q) (BUFFER_SIZE hdr)); lia. }
      change (is_sending_voice q1) with (is_sending_voice q). rewrite Hs.
      destruct (Z.eqb_spec (send_buffer_cnt q1) (BUFFER_SIZE hdr))
        as [Hfull|Hnot].
      * rewrite (bind_done _ _ _ _ _ _ (sendVoiceData_spec q1 Hfull)).
        change (tcp_client q1) with (tcp_client q). rewrite Ht.
        set (q2 := set_send_buffer_cnt 0 (set_gsmh _ q1)).
        destruct (IH samples count (sr + Z.of_nat n) q2)
          as (ps & q' & Hrun & Hn & Hlen & Hcnt & Hsame & Hs');
          try assumption; try lia.
        { change (send_buffer_cnt q2) with 0. lia. }
        { change (send_buffer_cnt q2) with 0. lia. }
        { change (send_buffer_cnt q2) with 0.
          destruct (Z.eqb_spec 0 (BUFFER_SIZE hdr)); lia. }
        change (send_buffer_cnt q2) with 0 in Hn, Hcnt.
        rewrite Hrun. cbn [fst snd].
        exists (voice_payload (gsmh q1) (send_buffer q1) :: ps), q'.
        split; [reflexivity|].
        assert (Heq : send_buffer_cnt q + count - sr
                      = (0 + count - (sr + Z.of_nat n))
                        + 1 * BUFFER_SIZE hdr) by lia.
        split; [|split; [|split; [|split]]].
        -- rewrite Heq, Z.div_add by lia. cbn [length]. lia.
        -- constructor; [apply voice_payload_length; lia|exact Hlen].
        -- rewrite Heq, Z.mod_add by lia. exact Hcnt.
        -- apply (same_control_trans q q1 q'); [exact Hq1|].
           apply (same_control_trans q1 q2 q'); [|exact Hsame].
           unfold q2. repeat split.
        -- exact Hs'.
      * destruct (IH samples count (sr + Z.of_nat n) q1)
          as (ps & q' & Hrun & Hn & Hlen & Hcnt & Hsame & Hs');
          try assumption; try lia.
        { destruct (Z.eqb_spec (send_buffer_cnt q1) (BUFFER_SIZE hdr)); lia. }
        rewrite Hrun. exists ps, q'. split; [reflexivity|].
        replace (send_buffer_cnt q + count - sr)
          with (send_buffer_cnt q1 + count - (sr + Z.of_nat n)) by lia.
        split; [exact Hn|]. split; [exact Hlen|]. split; [exact Hcnt|].
        split; [exact (same_control_trans q q1 q' Hq1 Hsame)|exact Hs'].
    + rewrite writeSamples_loop_done by lia.
      exists [], q. replace sr with count by lia.
      split; [reflexivity|].
      replace (send_buffer_cnt q + count - count) with (send_buffer_cnt q)
        by lia.
      rewrite Z.div_small, Z.mod_small by lia.
      repeat split; try assumption. constructor.
Qed.

Lemma writeSamples_no_samples (q : QsoFrn) :
  writeSamples [] (Z.of_nat (length (@nil Q))) q
  = ([], Done (Z.of_nat (length (@nil Q))) q).
Proof.
  unfold writeSamples. rewrite bind_gets.
  destruct (negb (State_eqb (state q) STATE_LOGGED_IN)); [reflexivity|].
  cbn [length Z.of_nat]. now rewrite writeSamples_loop_done by lia.
Qed.

(** X19: while LoggedIn and authorised to transmit, writeSamples accepts
    every sample it is given.  With c samples in the buffer before the call
    and n submitted, where c is below BUFFER_SIZE or n is not zero, it
    sends (c + n) / BUFFER_SIZE payloads, each announced by a TX1 token and
    each of FRAME_COUNT x GSM_FRAME_SIZE bytes, and leaves
    (c + n) mod BUFFER_SIZE samples in the buffer; it makes no other call.
    A call with no samples makes no call at all and changes nothing, also
    when the buffer is full. *)
Theorem writeSamples_authorised (q : QsoFrn) (samples : list Q) :
  header_ok hdr = true ->
  session_inv q = true ->
  state q = STATE_LOGGED_IN ->
  is_sending_voice q = true ->
  let n := Z.of_nat (length samples) in
  (send_buffer_cnt q < BUFFER_SIZE hdr \/ samples <> [] ->
   exists ps q',
     writeSamples samples n q = (voice_writes ps, Done n q')
     /\ Z.of_nat (length ps) = (send_buffer_cnt q + n) / BUFFER_SIZE hdr
     /\ Forall (fun p => Z.of_nat (length p)
                         = FRAME_COUNT hdr * GSM_FRAME_SIZE hdr) ps
     /\ send_buffer_cnt q' = (send_buffer_cnt q + n) mod BUFFER_SIZE hdr
     /\ state q' = STATE_LOGGED_IN
     /\ is_sending_voice q' = true)
  /\ (samples = [] -> writeSamples samples n q = ([], Done n q)).
Proof.
  intros Hh Hi Hst Hs. cbv zeta.
  split; [|intros ->; apply writeSamples_no_samples].
  intros Hgo.
  pose proof (header_ok_sizes Hh) as (Hf & _ & Hg & HB).
  pose proof (session_inv_logged_in q Hi Hst) as Htcp.
  apply session_inv_spec in Hi as (Hc & _ & _).
  unfold writeSamples. rewrite bind_gets, Hst. cbn [State_eqb negb].
  destruct (writeSamples_loop_authorised
              (S (S (Z.to_nat (Z.of_nat (length samples))))) samples
              (Z.of_nat (length samples)) 0 q)
    as (ps & q' & Hrun & Hn & Hlen & Hcnt & Hsame & Hs');
    try assumption; try lia.
  { destruct Hgo as [Hgo|Hgo]; [left; exact Hgo|right].
    destruct samples; [congruence|cbn; lia]. }
  { destruct (_ =? _)%Z; lia. }
  rewrite Hrun. exists ps, q'. rewrite Z.sub_0_r in Hn, Hcnt.
  destruct Hsame as (Hst' & _).
  repeat split; try assumption. congruence.
Qed.

(** X20: a buffer left full for want of the authorisation is sent, as it
    is, by the first writeSamples that follows the authorisation and
    submits at least one sample: TX1 and the encoding of the waiting
    buffer are written before any new sample is stored, and the new
    samples (fewer than BUFFER_SIZE) then sit at the start of the buffer,
    all of them accepted.  A call with no samples sends nothing and leaves
    the buffer waiting. *)
Theorem waiting_buffer_sent_first (q : QsoFrn) (samples : list Q) :
  header_ok hdr = true ->
  session_inv q = true ->
  state q = STATE_LOGGED_IN ->
  is_sending_voice q = true ->
  send_buffer_cnt q = BUFFER_SIZE hdr ->
  Z.of_nat (length samples) < BUFFER_SIZE hdr ->
  (samples <> [] ->
   exists q',
     writeSamples samples (Z.of_nat (length samples)) q
     = ([TcpWrite TX1; TcpWrite (voice_payload (gsmh q) (send_buffer q))],
        Done (Z.of_nat (length samples)) q')
     /\ send_buffer_cnt q' = Z.of_nat (length samples)
     /\ take (length samples) (send_buffer q') = map to_int16 samples)
  /\ (samples = [] ->
      writeSamples samples (Z.of_nat (length samples)) q
      = ([], Done (Z.of_nat (length samples)) q)).
Proof.
  intros Hh Hi Hst Hs Hc Hlen.
  split; [|intros ->; apply writeSamples_no_samples].
  intros Hne.
  pose proof (header_ok_sizes Hh) as (_ & _ & _ & HB).
  pose proof (session_inv_logged_in q Hi Hst) as Htcp.
  apply session_inv_spec in Hi as (_ & Hbuf & _).
  assert (Hpos : 0 < Z.of_nat (length samples)).
  { destruct samples; [congruence|cbn; lia]. }
  unfold writeSamples. rewrite bind_gets, Hst. cbn [State_eqb negb].
  replace (Z.to_nat (Z.of_nat (length samples)))
    with (S (Nat.pred (length samples))) by lia.
  rewrite writeSamples_loop_step by lia. cbv zeta.
  replace (Z.to_nat (Z.min _ _)) with 0%nat by lia.
  change (0 + Z.of_nat 0) with 0.
  cbn [converted seq map]. rewrite store_samples_nil.
  rewrite Hc, Z.eqb_refl, Hs.
  rewrite (bind_done _ _ _ _ _ _ (sendVoiceData_spec q Hc)), Htcp.
  set (q2 := set_send_buffer_cnt 0 (set_gsmh _ q)).
  rewrite writeSamples_loop_step;
    [|lia|change (send_buffer_cnt q2) with 0; lia|lia].
  cbv zeta. change (send_buffer_cnt q2) with 0.
  replace (Z.min (BUFFER_SIZE hdr - 0) (Z.of_nat (length samples) - 0))
    with (Z.of_nat (length samples)) by lia.
  rewrite Nat2Z.id, converted_take_drop by lia.
  change (Z.to_nat 0) with 0%nat. rewrite drop_0, take_ge by lia.
  change (send_buffer_cnt (store_samples ?xs q2))
    with (0 + Z.of_nat (length xs)).
  rewrite length_map.
  destruct (Z.eqb_spec (0 + Z.of_nat (length samples)) (BUFFER_SIZE hdr));
    [lia|].
  rewrite writeSamples_loop_done by lia. cbn [fst snd app].
  eexists. split; [reflexivity|].
  change (send_buffer_cnt (store_samples ?xs q2))
    with (0 + Z.of_nat (length xs)).
  change (send_buffer (store_samples ?xs q2))
    with (list_inserts (Z.to_nat 0) xs (send_buffer q)).
  rewrite length_map. split; [lia|].
  change (Z.to_nat 0) with 0%nat.
  rewrite <- (take_drop (length samples) (send_buffer q)).
  rewrite list_inserts_0_r by (rewrite length_map, length_take; lia).
  rewrite take_app_length'; [reflexivity|now rewrite length_map].
Qed.

(** *** The payload of sendVoiceData *)

(** X21: sendVoiceData on a full buffer, with an encoder that alternates
    between 32 and 33 bytes and a packed unit of 65 bytes: after the TX1
    token one payload is written, the units of the FRAME_COUNT frames in
    order, each unit being the 32 bytes encoded from the first half of its
    frame followed by the 33 bytes encoded from the second half; the fill
    count is reset and the encoder is back in its first phase.  When the
    fill count is not BUFFER_SIZE the assertion fails and nothing is
    written. *)
Theorem payload_packing (phase : gsm -> bool) (q : QsoFrn) :
  header_ok hdr = true ->
  encoder_alternates phase ->
  GSM_FRAME_SIZE hdr = 65 ->
  phase (gsmh q) = false ->
  tcp_client q = true ->
  let units :=
    encoded_units (Z.to_nat (FRAME_COUNT hdr)) 0 (send_buffer q) (gsmh q) in
  (send_buffer_cnt q = BUFFER_SIZE hdr ->
   exists q',
     sendVoiceData q
     = ([TcpWrite TX1; TcpWrite (concat units)], Done tt q')
     /\ Forall (fun u => length u = 65%nat) units
     /\ send_buffer_cnt q' = 0
     /\ phase (gsmh q') = false)
  /\ (send_buffer_cnt q <> BUFFER_SIZE hdr ->
      sendVoiceData q = ([], Aborted)).
Proof.
  intros Hh Halt HG Hph Htcp. cbv zeta.
  pose proof (header_ok_sizes Hh) as (Hf & _ & _ & _).
  split.
  - intros Hc. rewrite (sendVoiceData_spec q Hc), Htcp. cbn [app].
    destruct (encode_frames_units phase (Z.to_nat (FRAME_COUNT hdr)) 0
                (send_buffer q) (gsmh q) gsm_data0 0 Halt HG Hph)
      as (Htake & Hphase & Hunits).
    { lia. }
    { unfold gsm_data0, FRN_AUDIO_PACKET_SIZE.
      rewrite length_replicate, HG. cbn. lia. }
    assert (Hpay : voice_payload (gsmh q) (send_buffer q)
                   = concat (encoded_units (Z.to_nat (FRAME_COUNT hdr)) 0
                               (send_buffer q) (gsmh q))).
    { unfold voice_payload.
      pose proof (encode_frames_nbytes (Z.to_nat (FRAME_COUNT hdr)) 0
                    (send_buffer q) (gsmh q) gsm_data0 0) as Hn.
      destruct (encode_frames _ _ _ _ _ _) as [[g' d'] nb].
      cbn [fst snd] in Htake, Hn.
      change (Z.to_nat (0 * 65)) with 0%nat in Htake.
      change (take 0 gsm_data0) with (@nil ascii) in Htake.
      rewrite app_nil_l, Nat.add_0_l in Htake.
      rewrite <- Htake. f_equal. rewrite Hn, HG. lia. }
    rewrite Hpay.
    eexists. split; [reflexivity|].
    split; [exact Hunits|split; [reflexivity|exact Hphase]].
  - intros Hc. unfold sendVoiceData. rewrite bind_gets.
    unfold bind, assert.
    destruct (Z.eqb_spec (send_buffer_cnt q) (BUFFER_SIZE hdr));
      [contradiction|reflexivity].
Qed.

End Session.

Arguments Done {gsm A} a q.
Arguments session_of {gsm A} r.
Arguments trace_of {gsm A} r.
Arguments state {gsm} q.
Arguments is_sending_voice {gsm} q.
Arguments send_buffer {gsm} q.
Arguments send_buffer_cnt {gsm} q.
Arguments connect_retry_cnt {gsm} q.
Arguments receive_buffer {gsm} q.
Arguments gsmh {gsm} q.
Arguments tcp_client {gsm} q.
Arguments set_is_receiving_voice {gsm} v q.

(** ** Sessions of the instance *)

(** The session the constructor leaves. *)
Abbreviation q_new := (QsoFrn_new frn_header bool true false sample_cfg).

Abbreviation after evs q :=
  (session_after frn_header bool stub_encode stub_decode evs q).

(** Connected and logged in. *)
Abbreviation q_logged_in :=
  (after [CallConnect; TcpConnected; TcpDataReceived (token "2014003");
          TcpDataReceived (token "OK")] q_new).

(** The server has granted the transmission. *)
Abbreviation q_sending := (after [TcpDataReceived ["001"%char]] q_logged_in).

(** Three samples wait in the buffer. *)
Abbreviation q_partial :=
  (after [CallWriteSamples [1 # 2; -1 # 4; 3 # 1]%Q] q_sending).

(** ** The theorems at the instance *)

Lemma writeSamples_not_logged_in_witness :
  state q_new <> STATE_LOGGED_IN
  /\ writeSamples frn_header bool stub_encode [1 # 2; 1 # 4]%Q 2 q_new
     = ([], Done 2 q_new).
Proof.
  split; [vm_compute; discriminate|].
  apply (writeSamples_not_logged_in frn_header bool stub_encode q_new).
  vm_compute. discriminate.
Defined.

Lemma writeSamples_full_buffer_sent_witness :
  exists payload q',
    writeSamples frn_header bool stub_encode full_buffer
      (BUFFER_SIZE frn_header) q_sending
    = ([TcpWrite TX1; TcpWrite payload], Done (BUFFER_SIZE frn_header) q')
    /\ payload
       = voice_payload frn_header bool stub_encode (gsmh q_sending)
           (map to_int16 full_buffer)
    /\ Z.of_nat (length payload)
       = FRAME_COUNT frn_header * GSM_FRAME_SIZE frn_header
    /\ send_buffer_cnt q' = 0.
Proof.
  apply (writeSamples_full_buffer_sent frn_header bool stub_encode
           q_sending full_buffer); vm_compute; reflexivity.
Defined.

Lemma writeSamples_backpressure_witness :
  let room := BUFFER_SIZE frn_header - send_buffer_cnt q_logged_in in
  let filled := Z.to_nat (send_buffer_cnt q_logged_in) in
  exists q',
    writeSamples frn_header bool stub_encode overfull_buffer
      (Z.of_nat (length overfull_buffer)) q_logged_in
    = ([], Done room q')
    /\ room < Z.of_nat (length overfull_buffer)
    /\ send_buffer_cnt q' = BUFFER_SIZE frn_header
    /\ length (send_buffer q') = Z.to_nat (BUFFER_SIZE frn_header)
    /\ take filled (send_buffer q') = take filled (send_buffer q_logged_in)
    /\ drop filled (send_buffer q')
       = map to_int16 (take (Z.to_nat room) overfull_buffer)
    /\ is_sending_voice q' = false
    /\ state q' = STATE_LOGGED_IN
    /\ forall samples' count',
         writeSamples frn_header bool stub_encode samples' count' q'
         = ([], Done 0 q').
Proof.
  refine (writeSamples_backpressure frn_header bool stub_encode
            q_logged_in overfull_buffer _ _ _ _ _); vm_compute; reflexivity.
Defined.

Lemma flushSamples_partial_buffer_witness :
  exists q',
    flushSamples frn_header bool wav49_stub_encode q_partial
    = ([TcpWrite TX1;
        TcpWrite (voice_payload frn_header bool wav49_stub_encode
                    (gsmh q_partial)
                    ([16383; -8191; 32767] ++ replicate 1597 0));
        TcpWrite TX0; SourceAllSamplesFlushed], Done tt q')
    /\ voice_payload frn_header bool wav49_stub_encode (gsmh q_partial)
         ([16383; -8191; 32767] ++ replicate 1597 0)
       = concat (encoded_units frn_header bool wav49_stub_encode 5 0
                   ([16383; -8191; 32767] ++ replicate 1597 0) false)
    /\ is_sending_voice q' = false
    /\ send_buffer_cnt q' = 0.
Proof.
  destruct (flushSamples_partial_buffer frn_header bool wav49_stub_encode
              q_partial)
    as [(q' & Hrun & _ & _ & Hpay & Hs & Hc & _) _];
    [vm_compute; (reflexivity || (split; reflexivity))..|].
  exists q'. split; [exact Hrun|]. split; [|split; [exact Hs|exact Hc]].
  apply (Hpay (fun g => g));
    [intros [] src; split; vm_compute; reflexivity
    |vm_compute; reflexivity..].
Defined.

Lemma short_voice_packet_dropped_witness :
  Z.of_nat (length short_voice_packet) = FRN_AUDIO_PACKET_SIZE frn_header + 3 - 1
  /\ onDataReceived frn_header bool stub_decode short_voice_packet 327
       q_logged_in
     = ([TimerReset], Done 327 (set_is_receiving_voice true q_logged_in)).
Proof.
  split; [vm_compute; reflexivity|].
  apply (short_voice_packet_dropped frn_header bool stub_decode q_logged_in
           short_voice_packet 327);
    vm_compute; (reflexivity || discriminate).
Defined.

Lemma sample_conversion_witness :
  to_int16 (3 # 2) = INT16_MAX
  /\ to_int16 (-3 # 2) = - INT16_MAX
  /\ to_int16 (1 # 3) = 10922.
Proof.
  split; [|split].
  - apply (sample_conversion frn_header bool stub_encode (3 # 2)).
    vm_compute. discriminate.
  - apply (sample_conversion frn_header bool stub_encode (-3 # 2)).
    vm_compute. discriminate.
  - destruct (sample_conversion frn_header bool stub_encode (1 # 3))
      as (_ & _ & Hmid & _).
    destruct Hmid as (Hx & _); [reflexivity..|].
    rewrite Hx. reflexivity.
Defined.

Lemma reconnect_policy_witness :
  exists ts q',
    disconnects frn_header bool stub_encode stub_decode
      (replicate 7 DR_REMOTE_DISCONNECTED) q_new
    = (ts, Some q')
    /\ map connect_attempts ts = [1; 1; 1; 1; 1; 0; 0]%nat
    /\ state q' = STATE_ERROR.
Proof.
  destruct (reconnect_policy frn_header bool stub_encode stub_decode q_new
              (replicate 7 DR_REMOTE_DISCONNECTED))
    as (ts & q' & Hrun & _ & _ & _ & Herr);
    [vm_compute; (reflexivity || discriminate)..|].
  exists ts, q'. split; [exact Hrun|]. split.
  - vm_compute in Hrun. injection Hrun as <- _. vm_compute. reflexivity.
  - apply Herr. vm_compute. reflexivity.
Defined.

(** ** Where the code departs from the specification *)

(** C1 as the specification states it fails: with the ceiling at 5, the
    fifth consecutive transient disconnect is still followed by a connect
    attempt and leaves the state Connecting, not Error. *)
Lemma fifth_disconnect_reconnects :
  let out :=
    disconnects frn_header bool stub_encode stub_decode
      (replicate 5 DR_REMOTE_DISCONNECTED) q_new in
  MAX_CONNECT_RETRY_CNT frn_header = 5
  /\ connect_retry_cnt q_new = 0
  /\ map connect_attempts (fst out) = [1; 1; 1; 1; 1]%nat
  /\ option_map state (snd out) = Some STATE_CONNECTING
  /\ option_map state (snd out) <> Some STATE_ERROR.
Proof. vm_compute. repeat split. discriminate. Qed.

(** C7 as the specification states it fails: a sample below -1.0 is
    clamped to -32767, which is not the most negative 16-bit value. *)
Lemma clamp_below_is_not_int16_min :
  (-2 <= -1)%Q /\ to_int16 (-2) = -32767 /\ to_int16 (-2) <> INT16_MIN.
Proof. vm_compute. repeat split; discriminate. Qed.

(** ** The further properties at the instance *)

(** The buffer is full and the authorisation missing. *)
Abbreviation q_full := (after [CallWriteSamples overfull_buffer] q_logged_in).

(** The authorisation has come while the buffer was full. *)
Abbreviation q_granted := (after [TcpDataReceived ["001"%char]] q_full).

Lemma configured_values_are_sent_witness :
  connection_calls (trace_of (connect _ q_new))
  = [TcpConnect "frn.example.org" (Some 10024)].
Proof.
  destruct (configured_values_are_sent frn_header bool stub_encode
              stub_decode true false sample_cfg) as (H & _);
    [vm_compute; reflexivity|].
  exact H.
Defined.

Lemma disconnect_without_retry_witness :
  exists es q',
    deliver frn_header bool stub_encode stub_decode
      (TcpDisconnected DR_HOST_NOT_FOUND) q_logged_in
    = (es, Done tt q')
    /\ state q' = STATE_ERROR /\ connection_calls es = [].
Proof.
  destruct (disconnect_without_retry frn_header bool stub_encode stub_decode
              q_logged_in DR_HOST_NOT_FOUND)
    as (es & q' & Hrun & Hst & Hc & _); [reflexivity|].
  exists es, q'. auto.
Defined.

Lemma inactivity_timeout_reconnects_witness :
  exists es q',
    deliver frn_header bool stub_encode stub_decode ConTimeoutExpired
      q_logged_in
    = (es, Done tt q')
    /\ connection_calls es
       = [TcpDisconnect; TcpConnect "frn.example.org" (Some 10024)]
    /\ state q' = STATE_CONNECTING.
Proof.
  destruct (inactivity_timeout_reconnects frn_header bool stub_encode
              stub_decode q_logged_in) as (es & q' & Hrun & _ & H).
  destruct H as (Hc & Hst & _); [vm_compute; reflexivity|].
  exists es, q'. split; [exact Hrun|]. split; [exact Hc|exact Hst].
Defined.

Lemma flushSamples_nothing_to_send_witness :
  flushSamples frn_header bool stub_encode q_new
  = ([SourceAllSamplesFlushed], Done tt q_new).
Proof.
  apply (flushSamples_nothing_to_send frn_header bool stub_encode q_new).
  left. vm_compute. discriminate.
Defined.

Lemma flushSamples_full_buffer_witness :
  exists q',
    flushSamples frn_header bool stub_encode q_full
    = ([TcpWrite TX1;
        TcpWrite (voice_payload frn_header bool stub_encode (gsmh q_full)
                    (send_buffer q_full));
        TcpWrite TX0; SourceAllSamplesFlushed], Done tt q')
    /\ send_buffer_cnt q' = 0.
Proof.
  destruct (flushSamples_full_buffer frn_header bool stub_encode q_full)
    as (q' & Hrun & Hc & _); [vm_compute; reflexivity..|].
  exists q'. split; [exact Hrun|exact Hc].
Defined.

Lemma other_responses_change_nothing_witness :
  onDataReceived frn_header bool stub_decode ["200"%char] 1 q_logged_in
  = ([TimerReset; Cerr "unknown command"], Done 1 q_logged_in).
Proof.
  apply (other_responses_change_nothing frn_header bool stub_decode
           q_logged_in ["200"%char] 1);
    vm_compute; (reflexivity || discriminate).
Defined.

Lemma authorisation_granted_witness :
  onDataReceived frn_header bool stub_decode ["001"%char] 1 q_full
  = ([TimerReset; SourceResumeOutput],
     Done 1 (set_is_sending_voice bool true q_full)).
Proof.
  apply (authorisation_granted frn_header bool stub_decode q_full
           ["001"%char] 1); vm_compute; reflexivity.
Defined.

Lemma every_run_completes_witness :
  exists es q',
    run frn_header bool stub_encode stub_decode
      [CallConnect; TcpConnected; TcpDataReceived (token "OK");
       CallWriteSamples full_buffer; TcpDisconnected DR_SYSTEM_ERROR]
      q_new
    = (es, Done tt q')
    /\ 0 <= send_buffer_cnt q' <= BUFFER_SIZE frn_header.
Proof.
  destruct (every_run_completes frn_header bool stub_encode stub_decode
              true false sample_cfg
              [CallConnect; TcpConnected; TcpDataReceived (token "OK");
               CallWriteSamples full_buffer;
               TcpDisconnected DR_SYSTEM_ERROR])
    as (es & q' & Hrun & Hc & _); [vm_compute; reflexivity..|].
  exists es, q'. split; [exact Hrun|exact Hc].
Defined.

Lemma offline_sessions_are_quiet_witness :
  exists es q',
    run frn_header bool stub_encode stub_decode
      [CallConnect; TcpConnected; TcpDisconnected DR_HOST_NOT_FOUND] q_new
    = (es, Done tt q')
    /\ (offline (state q') = true -> tcp_client q' = false).
Proof.
  destruct (offline_sessions_are_quiet frn_header bool stub_encode
              stub_decode true false sample_cfg
              [CallConnect; TcpConnected;
               TcpDisconnected DR_HOST_NOT_FOUND])
    as (es & q' & Hrun & H); [vm_compute; reflexivity..|].
  exists es, q'. split; [exact Hrun|]. intros Hoff.
  destruct (H Hoff) as (_ & _ & Ht & _). exact Ht.
Defined.

Lemma failure_counter_and_attempts_witness :
  exists es q',
    deliver frn_header bool stub_encode stub_decode
      (TcpDisconnected DR_REMOTE_DISCONNECTED) q_logged_in
    = (es, Done tt q')
    /\ connect_retry_cnt q' = 1 /\ connect_attempts es = 1%nat.
Proof.
  destruct (failure_counter_and_attempts frn_header bool stub_encode
              stub_decode (TcpDisconnected DR_REMOTE_DISCONNECTED)
              q_logged_in)
    as (es & q' & Hrun & Hc & Ha); [vm_compute; reflexivity..|].
  exists es, q'. split; [exact Hrun|]. split; [exact Hc|exact Ha].
Defined.

Lemma authorisation_flag_changes_witness :
  exists es q',
    deliver frn_header bool stub_encode stub_decode
      (TcpDisconnected DR_REMOTE_DISCONNECTED) q_sending
    = (es, Done tt q')
    /\ is_sending_voice q' = true.
Proof.
  destruct (authorisation_flag_changes frn_header bool stub_encode
              stub_decode (TcpDisconnected DR_REMOTE_DISCONNECTED)
              q_sending)
    as (es & q' & Hrun & Hs); [vm_compute; reflexivity..|].
  exists es, q'. split; [exact Hrun|exact Hs].
Defined.

Lemma no_write_on_closed_transport_witness :
  exists es q',
    deliver frn_header bool stub_encode stub_decode (CallSquelchOpen true)
      q_new
    = (es, Done tt q')
    /\ tcp_writes es = [].
Proof.
  apply (no_write_on_closed_transport frn_header bool stub_encode
           stub_decode (CallSquelchOpen true) q_new);
    try (vm_compute; reflexivity).
  discriminate.
Defined.

Lemma inbound_data_frame_witness :
  exists es q',
    onDataReceived frn_header bool stub_decode (token "OK") 2 q_new
    = (TimerReset :: es, Done 2 q')
    /\ state q' = STATE_DISCONNECTED.
Proof.
  destruct (inbound_data_frame frn_header bool stub_decode q_new
              (token "OK") 2)
    as (es & q' & Hrun & _ & _ & _ & _ & Hst); [vm_compute; reflexivity..|].
  exists es, q'. split; [exact Hrun|exact Hst].
Defined.

Lemma stub_decode_fits : decoder_fits frn_header bool stub_decode.
Proof. split; [reflexivity|]. intros g src. reflexivity. Qed.

Lemma voice_packet_decoded_witness :
  exists blocks q',
    onDataReceived frn_header bool stub_decode voice_packet 328 q_logged_in
    = (TimerReset :: map (fun b => SinkWriteSamples (map to_float b)) blocks,
       Done 328 q')
    /\ Z.of_nat (length blocks) = 5
    /\ Forall (fun b => Z.of_nat (length b) = 320) blocks.
Proof.
  destruct (voice_packet_decoded frn_header bool stub_decode q_logged_in
              voice_packet 328 eq_refl stub_decode_fits)
    as (q' & Hrun & Hn & Hshape & _); [vm_compute; reflexivity..|].
  eexists _, q'. split; [exact Hrun|]. split; [exact Hn|exact Hshape].
Defined.

Lemma sample_round_trip_witness :
  (Qabs ((1 # 3) - to_float (to_int16 (1 # 3))) < 2 / 32768)%Q.
Proof.
  destruct (sample_round_trip (1 # 3)) as (_ & _ & H).
  destruct H as [H _]; [discriminate..|]. exact H.
Defined.

Lemma writeSamples_authorised_witness :
  (exists ps q',
     writeSamples frn_header bool stub_encode overfull_buffer 1601 q_sending
     = (voice_writes ps, Done 1601 q')
     /\ Z.of_nat (length ps) = 1
     /\ send_buffer_cnt q' = 1)
  /\ writeSamples frn_header bool stub_encode [] 0 q_granted
     = ([], Done 0 q_granted).
Proof.
  split.
  - destruct (writeSamples_authorised frn_header bool stub_encode q_sending
                overfull_buffer) as [H _]; [vm_compute; reflexivity..|].
    destruct H as (ps & q' & Hrun & Hn & _ & Hc & _);
      [right; discriminate|].
    exists ps, q'. split; [exact Hrun|]. split; [exact Hn|exact Hc].
  - destruct (writeSamples_authorised frn_header bool stub_encode q_granted
                []) as [_ H]; [vm_compute; reflexivity..|].
    exact (H eq_refl).
Defined.

Lemma waiting_buffer_sent_first_witness :
  (exists q',
     writeSamples frn_header bool stub_encode [1 # 2; 1 # 4]%Q 2 q_granted
     = ([TcpWrite TX1;
         TcpWrite (voice_payload frn_header bool stub_encode (gsmh q_granted)
                     (send_buffer q_granted))],
        Done 2 q')
     /\ send_buffer_cnt q' = 2
     /\ take 2 (send_buffer q') = [16383; 8191])
  /\ writeSamples frn_header bool stub_encode [] 0 q_granted
     = ([], Done 0 q_granted).
Proof.
  split.
  - destruct (waiting_buffer_sent_first frn_header bool stub_encode
                q_granted [1 # 2; 1 # 4]%Q) as [H _];
      [vm_compute; reflexivity..|].
    destruct (H ltac:(discriminate)) as (q' & Hrun & Hc & Hb).
    exists q'. split; [exact Hrun|]. split; [exact Hc|exact Hb].
  - destruct (waiting_buffer_sent_first frn_header bool stub_encode
                q_granted []) as [_ H]; [vm_compute; reflexivity..|].
    exact (H eq_refl).
Defined.

Lemma payload_packing_witness :
  exists q',
    sendVoiceData frn_header bool wav49_stub_encode q_granted
    = ([TcpWrite TX1;
        TcpWrite (concat (encoded_units frn_header bool wav49_stub_encode
                            5 0 (send_buffer q_granted) false))],
       Done tt q')
    /\ send_buffer_cnt q' = 0.
Proof.
  destruct (payload_packing frn_header bool wav49_stub_encode
              (fun g => g) q_granted) as [H _];
    [vm_compute; reflexivity
    |intros [] src; split; vm_compute; reflexivity
    |vm_compute; reflexivity..|].
  destruct H as (q' & Hrun & _ & Hc & _); [vm_compute; reflexivity|].
  exists q'. split; [exact Hrun|exact Hc].
Defined.
